(** * Session title derivation and content resolution

    A shallow embedding of the data-shaping logic of the application:

    - [generateSessionTitle], the title generator of the session-creation
      route (server side);
    - [detectLanguageFromFile], [fetchGitHubRepo] and [handleSubmit] of the
      [TextInput] component (client side);
    - the [POST] handler that persists a session and its seed message.

    JavaScript strings are sequences of UTF-16 code units; they are modelled
    as lists of code units, each a number of type [N]. *)

From Stdlib Require Import List NArith ZArith Bool Arith Lia.
From Stdlib Require String Ascii.
Import ListNotations String.StringSyntax.

Declare Scope lit_scope.
Delimit Scope lit_scope with lit.
Bind Scope lit_scope with String.string.
String Notation String.string String.string_of_list_byte String.list_byte_of_string : lit_scope.

Open Scope list_scope.

(** ** JavaScript strings *)

Module JS.

Definition jsstring : Type := list N.

(** [str] turns a literal into the list of its code units (the literals
    used below are all ASCII). *)
Definition str (s : String.string) : jsstring :=
  List.map Ascii.N_of_ascii (String.list_ascii_of_string s).
Arguments str s%_lit.

Definition LF : N := 10%N.
Definition SPACE : N := 32%N.

Definition jsstring_eqb (a b : jsstring) : bool :=
  if list_eq_dec N.eq_dec a b then true else false.

(** The code units that [String.prototype.trim] removes and that the
    regular-expression class [\s] matches: the WhiteSpace and
    LineTerminator productions of ECMAScript. *)
Definition isWhiteSpace (c : N) : bool :=
  (N.eqb c 9 || N.eqb c 10 || N.eqb c 11 || N.eqb c 12 || N.eqb c 13
   || N.eqb c 32 || N.eqb c 160 || N.eqb c 5760
   || (N.leb 8192 c && N.leb c 8202)
   || N.eqb c 8232 || N.eqb c 8233 || N.eqb c 8239 || N.eqb c 8287
   || N.eqb c 12288 || N.eqb c 65279)%bool.

Fixpoint trimStart (s : jsstring) : jsstring :=
  match s with
  | [] => []
  | c :: s' => if isWhiteSpace c then trimStart s' else s
  end.

Definition trimEnd (s : jsstring) : jsstring := rev (trimStart (rev s)).

(** [s.trim()] *)
Definition trim (s : jsstring) : jsstring := trimEnd (trimStart s).

(** Prefixes a code unit to the first piece of a split in progress. *)
Definition consHead (c : N) (pieces : list jsstring) : list jsstring :=
  match pieces with
  | [] => [[c]]
  | h :: t => (c :: h) :: t
  end.

(** [s.split(sep)] for a separator of one code unit: the result always has
    at least one element, and [n] separators give [n + 1] pieces. *)
Fixpoint split (sep : N) (s : jsstring) : list jsstring :=
  match s with
  | [] => [[]]
  | c :: s' => if N.eqb c sep then [] :: split sep s'
               else consHead c (split sep s')
  end.

(** [s.split(/\s+/)]: the separators are the maximal runs of white space.
    [inws] tells that the previous code unit belonged to a separator. *)
Fixpoint splitWsFrom (inws : bool) (s : jsstring) : list jsstring :=
  match s with
  | [] => [[]]
  | c :: s' =>
      if isWhiteSpace c
      then (if inws then splitWsFrom true s' else [] :: splitWsFrom true s')
      else consHead c (splitWsFrom false s')
  end.

Definition splitWs (s : jsstring) : list jsstring := splitWsFrom false s.

(** [s.startsWith(p)] *)
Fixpoint startsWith (s p : jsstring) : bool :=
  match p, s with
  | [], _ => true
  | _ :: _, [] => false
  | a :: p', b :: s' => N.eqb a b && startsWith s' p'
  end.

(** [arr.join(sep)] *)
Fixpoint join (sep : jsstring) (l : list jsstring) : jsstring :=
  match l with
  | [] => []
  | [x] => x
  | x :: rest => x ++ sep ++ join sep rest
  end.

(** [s.includes(p)] on strings: [p] occurs somewhere in [s]. *)
Fixpoint occursIn (s p : jsstring) : bool :=
  startsWith s p
  || match s with
     | [] => false
     | _ :: s' => occursIn s' p
     end.

(** [arr.includes(x)] on an array of strings. *)
Definition includes (l : list jsstring) (x : jsstring) : bool :=
  existsb (jsstring_eqb x) l.

(** [s.charAt(0)] and [s.slice(1)], [s.substring(0, n)] *)
Definition charAt0 (s : jsstring) : jsstring := firstn 1 s.
Definition slice1 (s : jsstring) : jsstring := skipn 1 s.
Definition substring0 (n : nat) (s : jsstring) : jsstring := firstn n s.

(** Truthiness of a string: only the empty string is falsy. *)
Definition truthy (s : jsstring) : bool :=
  match s with [] => false | _ :: _ => true end.

(** [a || b] on strings. *)
Definition orElse (a b : jsstring) : jsstring := if truthy a then a else b.

(** Case mapping of one ASCII letter; every other code unit is kept.  On
    strings of ASCII code units this is what [toLowerCase] and
    [toUpperCase] compute. *)
Definition asciiLowerUnit (c : N) : N :=
  if (N.leb 65 c && N.leb c 90)%bool then (c + 32)%N else c.
Definition asciiUpperUnit (c : N) : N :=
  if (N.leb 97 c && N.leb c 122)%bool then (c - 32)%N else c.
Definition asciiToLowerCase (s : jsstring) : jsstring := List.map asciiLowerUnit s.
Definition asciiToUpperCase (s : jsstring) : jsstring := List.map asciiUpperUnit s.

End JS.

Import JS.

(** ** The title generator (session-creation route) *)

Section TitleDeriver.

(** [String.prototype.toLowerCase] and [toUpperCase] are provided by the
    JavaScript engine from the Unicode case tables; the generator is
    studied for any such pair of mappings. *)
Variable toLowerCase : jsstring -> jsstring.
Variable toUpperCase : jsstring -> jsstring.

(** The predicate of the first [filter]: empty lines and lines opening
    with a comment leader are removed. *)
Definition keepLine (line : jsstring) : bool :=
  if negb (truthy line) then false
  else if startsWith line (str "//") then false
  else if startsWith line (str "/*") then false
  else if startsWith line (str "*") then false
  else if startsWith line (str "#") then false
  else if startsWith line (str "<!--") then false
  else true.

Definition cleanCode (code : jsstring) : jsstring :=
  join (str " ") (filter keepLine (List.map trim (split LF code))).

(** The character class of the symbol-stripping [replace]: braces,
    parentheses, semicolon, comma, square brackets, double quote (34),
    single quote (39) and backtick (96). *)
Definition isCodeSymbol (c : N) : bool :=
  (N.eqb c 123 || N.eqb c 125 || N.eqb c 40 || N.eqb c 41 || N.eqb c 59
   || N.eqb c 44 || N.eqb c 91 || N.eqb c 93 || N.eqb c 34 || N.eqb c 39
   || N.eqb c 96)%bool.

Definition replaceSymbols (s : jsstring) : jsstring :=
  List.map (fun c => if isCodeSymbol c then SPACE else c) s.

Definition commonKeywords : list jsstring :=
  List.map str
    ["import"; "from"; "const"; "let"; "var"; "function"; "class"; "export";
     "default"; "return"; "if"; "else"; "for"; "while"; "do"; "try"; "catch";
     "async"; "await"]%lit.

Definition keepWord (word : jsstring) : bool :=
  (2 <? length word) && negb (includes commonKeywords (toLowerCase word)).

Definition titleWords (code : jsstring) : list jsstring :=
  firstn 4 (filter keepWord (splitWs (replaceSymbols (cleanCode code)))).

Definition generateSessionTitle (code language : jsstring) : jsstring :=
  if negb (truthy code) || (length (trim code) =? 0) then
    str "New " ++ language ++ str " Session"
  else
    let words := titleWords code in
    if length words =? 0 then
      (toUpperCase (charAt0 language) ++ slice1 language) ++ str " Code"
    else
      let title := join (str " ") words in
      if 30 <? length title then substring0 27 title ++ str "..."
      else title.

End TitleDeriver.

(** ** Data of the TextInput component *)

(** A fetched repository file.  [type] is always the literal 'file' and is
    left out; [language] is an optional field. *)
Module GitHubFile.
Record t : Type := mk {
  name : jsstring;
  path : jsstring;
  content : jsstring;
  size : N;
  language : option jsstring
}.
End GitHubFile.

Module GitHubRepo.
Record t : Type := mk {
  name : jsstring;
  fullName : jsstring;
  description : jsstring;
  stars : N;
  language : jsstring;
  files : list GitHubFile.t
}.
End GitHubRepo.

(** A browser [File] as the component sees it: its name, its size, and
    what a [FileReader] makes of it ([None] when [onerror] fires). *)
Module File.
Record t : Type := mk {
  name : jsstring;
  size : N;
  text : option jsstring
}.
End File.

(** What the hosting service answers. *)
Module RepoJson.
Record t : Type := mk {
  name : jsstring;
  full_name : jsstring;
  description : option jsstring;
  stargazers_count : N;
  language : option jsstring
}.
End RepoJson.

Module ContentItem.
Record t : Type := mk {
  name : jsstring;
  path : jsstring;
  type : jsstring;
  size : N;
  download_url : jsstring
}.
End ContentItem.

(** The outcome of [await fetch(url)] followed by reading the body: the
    promise rejects, or a response arrives with its [ok] flag and a body
    that may fail to be read in the expected shape. *)
Inductive Fetched (A : Type) : Type :=
| Rejected : Fetched A
| Response : bool -> option A -> Fetched A.
Arguments Rejected {A}.
Arguments Response {A} _ _.

(** The network, as a function of the requested URL. *)
Record Network : Type := mkNetwork {
  getRepo : jsstring -> Fetched RepoJson.t;
  getContents : jsstring -> Fetched (list ContentItem.t);
  getText : jsstring -> Fetched jsstring
}.

(** The body of the request sent to the session-creation route. *)
Module RepoPayload.
Record t : Type := mk {
  name : jsstring;
  fullName : jsstring;
  files : list GitHubFile.t
}.
End RepoPayload.

Module SessionRequest.
Record t : Type := mk {
  code : jsstring;
  language : jsstring;
  initialMessage : jsstring;
  githubRepo : option RepoPayload.t
}.
End SessionRequest.

(** ** The persistence store (schema.prisma) *)

Inductive MessageType : Type := USER | ASSISTANT.

Module ChatMessage.
Record t : Type := mk {
  content : jsstring;
  type : MessageType
}.
End ChatMessage.

Module CodeSession.
Record t : Type := mk {
  id : N;
  code : jsstring;
  language : jsstring;
  title : option jsstring;
  githubRepo : option RepoPayload.t;
  messages : list ChatMessage.t
}.
End CodeSession.

(** The store holds the session rows, each with its messages; [online]
    tells whether a write succeeds, [nextId] stands for the generated
    identifiers. *)
Record Db : Type := mkDb {
  sessions : list CodeSession.t;
  online : bool;
  nextId : N
}.

(** The state of the component read by the handlers.  [currentValue] is
    the text of the input (the page passes no [value] property, so it is
    the internal value), [githubRepo] the reference typed in the dialog and
    [githubRepoData] the snapshot, [None] for [null]. *)
Record State : Type := mkState {
  currentValue : jsstring;
  attachedFiles : list File.t;
  githubRepo : jsstring;
  githubRepoData : option GitHubRepo.t
}.

(** ** The TextInput component and the session-creation route *)

Section Component.

Variable toLowerCase : jsstring -> jsstring.
Variable toUpperCase : jsstring -> jsstring.

(** [readFileContent]: resolves with [content || ''], rejects on a read
    error. *)
Definition readFileContent (file : File.t) : option jsstring :=
  match File.text file with
  | Some content => Some (orElse content (str ""))
  | None => None
  end.

(** The entries of [languageMap].  The lookup below consults these own
    keys.  In JavaScript [languageMap[extension]] also reads the
    properties that every plain object inherits (constructor, __proto__,
    ...), whose values are not strings; for a file name whose last segment
    is such a name the model does not follow the code, and the statements
    that depend on the language of an arbitrary file name set these names
    apart with [plainName]. *)
Definition languageMap : list (jsstring * jsstring) :=
  [ (str "js", str "javascript"); (str "jsx", str "javascript");
    (str "ts", str "typescript"); (str "tsx", str "typescript");
    (str "py", str "python"); (str "java", str "java");
    (str "cpp", str "cpp"); (str "c", str "c");
    (str "html", str "html"); (str "css", str "css");
    (str "scss", str "scss"); (str "json", str "json");
    (str "xml", str "xml"); (str "php", str "php");
    (str "rb", str "ruby"); (str "go", str "go");
    (str "rs", str "rust"); (str "kt", str "kotlin");
    (str "swift", str "swift"); (str "dart", str "dart");
    (str "vue", str "vue"); (str "svelte", str "svelte") ].

Fixpoint lookup (key : jsstring) (m : list (jsstring * jsstring))
  : option jsstring :=
  match m with
  | [] => None
  | (k, v) :: m' => if jsstring_eqb key k then Some v else lookup key m'
  end.

(** [fileName.split('.').pop()?.toLowerCase()], then the table, then the
    default. *)
Definition detectLanguageFromFile (fileName : jsstring) : jsstring :=
  let extension := toLowerCase (last (split 46 fileName) []) in
  match lookup (orElse extension (str "")) languageMap with
  | Some l => orElse l (str "javascript")
  | None => str "javascript"
  end.

(** *** Matching [/github\.com\/([^/]+)\/([^/]+)/] *)

Definition notSlash (c : N) : bool := negb (N.eqb c 47).

(** The longest prefix of code units satisfying [p], and the rest. *)
Fixpoint span (p : N -> bool) (s : jsstring) : jsstring * jsstring :=
  match s with
  | [] => ([], [])
  | c :: s' =>
      if p c then let (a, b) := span p s' in (c :: a, b) else ([], s)
  end.

Fixpoint stripPrefix (p s : jsstring) : option jsstring :=
  match p, s with
  | [], _ => Some s
  | _ :: _, [] => None
  | a :: p', b :: s' => if N.eqb a b then stripPrefix p' s' else None
  end.

(** A match starting exactly at the head of [s].  Both groups are greedy
    and range over the same class, whose complement is the separator, so
    the longest run is the only candidate for the first group. *)
Definition matchRepoAt (s : jsstring) : option (jsstring * jsstring) :=
  match stripPrefix (str "github.com/") s with
  | None => None
  | Some r =>
      let (owner, r1) := span notSlash r in
      match owner, r1 with
      | _ :: _, _ :: r2 =>
          let (repo, _) := span notSlash r2 in
          match repo with
          | [] => None
          | _ :: _ => Some (owner, repo)
          end
      | _, _ => None
      end
  end.

(** [repoUrl.match(...)]: the leftmost position at which a match starts. *)
Fixpoint matchRepo (s : jsstring) : option (jsstring * jsstring) :=
  match matchRepoAt s with
  | Some m => Some m
  | None => match s with
            | [] => None
            | _ :: s' => matchRepo s'
            end
  end.

(** [repo.replace(/\.git$/, '')] *)
Definition stripDotGit (repo : jsstring) : jsstring :=
  match stripPrefix (rev (str ".git")) (rev repo) with
  | Some r => rev r
  | None => repo
  end.

(** The address of the metadata of a repository; its listing is at the
    same address followed by [/contents]. *)
Definition repoApiUrl (owner repo : jsstring) : jsstring :=
  let cleanRepo := stripDotGit repo in
  str "https://api.github.com/repos/" ++ owner ++ str "/" ++ cleanRepo.

(** The value of a response that is [ok] and whose body could be read;
    anything else makes the enclosing [try] block throw. *)
Definition okBody {A : Type} (r : Fetched A) : option A :=
  match r with
  | Response true (Some a) => Some a
  | _ => None
  end.

(** The inner [try]/[catch] of the file promises: the status of the
    response is not inspected, only a rejection yields [null]. *)
Definition fetchFile (net : Network) (item : ContentItem.t)
  : option GitHubFile.t :=
  match getText net (ContentItem.download_url item) with
  | Response _ (Some content) =>
      Some (GitHubFile.mk (ContentItem.name item) (ContentItem.path item)
              content (ContentItem.size item)
              (Some (detectLanguageFromFile (ContentItem.name item))))
  | _ => None
  end.

Definition isFileItem (item : ContentItem.t) : bool :=
  jsstring_eqb (ContentItem.type item) (str "file").

(** [resolvedFiles.filter(Boolean)] *)
Fixpoint filterBoolean {A : Type} (l : list (option A)) : list A :=
  match l with
  | [] => []
  | Some a :: l' => a :: filterBoolean l'
  | None :: l' => filterBoolean l'
  end.

Definition selectedItems (contents : list ContentItem.t)
  : list ContentItem.t :=
  firstn 10 (filter isFileItem contents).

(** [fetchGitHubRepo]: [None] is the [null] of the outer [catch]. *)
Definition fetchGitHubRepo (net : Network) (repoUrl : jsstring)
  : option GitHubRepo.t :=
  match matchRepo repoUrl with
  | None => None
  | Some (owner, repo) =>
      match okBody (getRepo net (repoApiUrl owner repo)) with
      | None => None
      | Some repoData =>
          match okBody (getContents net
                          (repoApiUrl owner repo ++ str "/contents")) with
          | None => None
          | Some contents =>
              let resolvedFiles :=
                List.map (fetchFile net) (selectedItems contents) in
              let files := filterBoolean resolvedFiles in
              Some (GitHubRepo.mk
                      (RepoJson.name repoData)
                      (RepoJson.full_name repoData)
                      (orElse (match RepoJson.description repoData with
                               | Some d => d | None => [] end)
                              (str "No description available"))
                      (RepoJson.stargazers_count repoData)
                      (orElse (match RepoJson.language repoData with
                               | Some l => l | None => [] end)
                              (str "Unknown"))
                      files)
          end
      end
  end.

(** [handleGithubModalSubmit]: a reference that resolves replaces the
    snapshot, any other outcome leaves the state as it was. *)
Definition handleGithubModalSubmit (net : Network) (st : State) : State :=
  if truthy (trim (githubRepo st)) then
    match fetchGitHubRepo net (trim (githubRepo st)) with
    | Some repoData =>
        mkState (currentValue st) (attachedFiles st) (githubRepo st)
          (Some repoData)
    | None => st
    end
  else st.

(** *** [handleSubmit] *)

(** The guard of [handleSubmit]. *)
Definition canSubmit (st : State) : bool :=
  truthy (trim (currentValue st))
  || (0 <? length (attachedFiles st))
  || (match githubRepoData st with Some _ => true | None => false end).

(** The block that computes [codeContent] and [language]. *)
Definition resolveContent (st : State) : jsstring * jsstring :=
  let currentValue := currentValue st in
  let codeContent := currentValue in
  let language := str "javascript" in
  let fromLocalFiles :=
    match attachedFiles st with
    | firstFile :: _ =>
        match readFileContent firstFile with
        | Some fileContent =>
            let language := detectLanguageFromFile (File.name firstFile) in
            if truthy (trim currentValue) then
              (str "// User Input: " ++ currentValue ++ [LF; LF]
               ++ str "// File: " ++ File.name firstFile ++ [LF]
               ++ fileContent, language)
            else (fileContent, language)
        | None => (currentValue, language)
        end
    | [] => (codeContent, language)
    end in
  match githubRepoData st with
  | Some githubRepoData =>
      match GitHubRepo.files githubRepoData with
      | firstFile :: _ =>
          let language :=
            orElse (match GitHubFile.language firstFile with
                    | Some l => l | None => [] end)
                   (str "javascript") in
          if truthy (trim currentValue) then
            (str "// User Input: " ++ currentValue ++ [LF; LF]
             ++ str "// GitHub Repository: "
             ++ GitHubRepo.fullName githubRepoData ++ [LF]
             ++ str "// File: " ++ GitHubFile.name firstFile ++ [LF]
             ++ GitHubFile.content firstFile, language)
          else (GitHubFile.content firstFile, language)
      | [] => fromLocalFiles
      end
  | None => fromLocalFiles
  end.

(** The JSON body of the request. *)
Definition requestBody (st : State) : SessionRequest.t :=
  let (codeContent, language) := resolveContent st in
  SessionRequest.mk codeContent language
    (orElse (currentValue st)
       (match githubRepoData st with
        | Some githubRepoData =>
            str "Opened GitHub repository: "
            ++ GitHubRepo.fullName githubRepoData
        | None =>
            str "Opened file: "
            ++ orElse (match attachedFiles st with
                       | f :: _ => File.name f | [] => [] end)
                      (str "Unknown")
        end))
    (match githubRepoData st with
     | Some githubRepoData =>
         Some (RepoPayload.mk (GitHubRepo.name githubRepoData)
                 (GitHubRepo.fullName githubRepoData)
                 (GitHubRepo.files githubRepoData))
     | None => None
     end).

(** [prisma.codeSession.create] with its nested messages: one atomic
    write, which throws when the store is not reachable. *)
Definition prismaCreate (db : Db) (code language : jsstring)
    (title : jsstring) (repo : option RepoPayload.t)
    (messages : list ChatMessage.t) : option (Db * CodeSession.t) :=
  if online db then
    let session :=
      CodeSession.mk (nextId db) code language (Some title) repo messages in
    Some (mkDb (sessions db ++ [session]) (online db) (N.succ (nextId db)),
          session)
  else None.

(** The [POST] handler of the route: [Some session] is the 200 answer,
    [None] the 500 answer. *)
Definition POST (db : Db) (body : SessionRequest.t)
  : Db * option CodeSession.t :=
  let code := SessionRequest.code body in
  let language := SessionRequest.language body in
  let initialMessage := SessionRequest.initialMessage body in
  let sessionTitle :=
    generateSessionTitle toLowerCase toUpperCase
      (orElse code (str "")) (orElse language (str "javascript")) in
  match prismaCreate db code (orElse language (str "javascript"))
          sessionTitle (SessionRequest.githubRepo body)
          (if truthy initialMessage
           then [ChatMessage.mk initialMessage USER] else []) with
  | Some (db', session) => (db', Some session)
  | None => (db, None)
  end.

(** [handleSubmit]: the new state of the component, the new store and the
    session the router is sent to, if any. *)
Definition handleSubmit (st : State) (db : Db) : State * Db * option N :=
  if canSubmit st then
    match POST db (requestBody st) with
    | (db', Some session) =>
        (mkState (str "") [] (str "") None, db', Some (CodeSession.id session))
    | (db', None) => (st, db', None)
    end
  else (st, db, None).

End Component.

(** ** The title algorithm as the specification words it

    A second definition, written from the six steps of the specification
    and not from the code, against which [generateSessionTitle] is
    compared below. *)

Module TitleSpec.

Section Algorithm.

Variable toLowerCase : jsstring -> jsstring.
Variable toUpperCase : jsstring -> jsstring.

(** Cuts a string at every code unit that satisfies [p]. *)
Fixpoint cutAt (p : N -> bool) (s : jsstring) : list jsstring :=
  match s with
  | [] => [[]]
  | c :: s' => if p c then [] :: cutAt p s' else consHead c (cutAt p s')
  end.

Definition isEmpty (s : jsstring) : bool := length s =? 0.

(** Step 1: empty or made of white space only. *)
Definition isBlank (code : jsstring) : bool := forallb isWhiteSpace code.

(** Step 2. *)
Definition commentLeaders : list jsstring :=
  List.map str ["//"; "/*"; "*"; "#"; "<!--"]%lit.

Definition isDroppedLine (line : jsstring) : bool :=
  isEmpty line || existsb (startsWith line) commentLeaders.

Definition lines (code : jsstring) : list jsstring :=
  cutAt (fun c => N.eqb c LF) code.

Definition keptLines (code : jsstring) : jsstring :=
  join [SPACE]
    (filter (fun l => negb (isDroppedLine l)) (List.map trim (lines code))).

(** Step 3: the eleven symbols, by code unit, and the tokens, which are
    the non-empty pieces between white space. *)
Definition symbols : list N := [123; 125; 40; 41; 59; 44; 91; 93; 34; 39; 96]%N.

Definition stripSymbols (s : jsstring) : jsstring :=
  List.map (fun c => if existsb (N.eqb c) symbols then SPACE else c) s.

Definition tokens (s : jsstring) : list jsstring :=
  filter (fun t => negb (isEmpty t)) (cutAt isWhiteSpace s).

(** Step 4. *)
Definition stopWords : list jsstring :=
  List.map str
    ["import"; "from"; "const"; "let"; "var"; "function"; "class"; "export";
     "default"; "return"; "if"; "else"; "for"; "while"; "do"; "try"; "catch";
     "async"; "await"]%lit.

Definition isStopWord (t : jsstring) : bool :=
  existsb (fun k => jsstring_eqb k (toLowerCase t)) stopWords.

Definition isDroppedToken (t : jsstring) : bool :=
  (length t <=? 2) || isStopWord t.

(** Step 5. *)
Definition survivors (code : jsstring) : list jsstring :=
  firstn 4
    (filter (fun t => negb (isDroppedToken t))
       (tokens (stripSymbols (keptLines code)))).

Definition Capitalize (language : jsstring) : jsstring :=
  match language with
  | [] => toUpperCase []
  | c :: rest => toUpperCase [c] ++ rest
  end.

(** Step 6. *)
Definition ellipsize (s : jsstring) : jsstring :=
  if length s <=? 30 then s else firstn 27 s ++ str "...".

Definition TitleDeriver (code language : jsstring) : jsstring :=
  if isBlank code then str "New " ++ language ++ str " Session"
  else
    match survivors code with
    | [] => Capitalize language ++ str " Code"
    | _ :: _ => ellipsize (join [SPACE] (survivors code))
    end.

End Algorithm.

End TitleSpec.

(** ** Concrete inputs used in the examples *)

Module Samples.

Definition emptySnapshot : GitHubRepo.t :=
  GitHubRepo.mk (str "docs") (str "octo/docs") (str "No description available")
    0 (str "Unknown") [].

Definition mainPy : File.t :=
  File.mk (str "main.py") 8 (Some (str "print(1)")).

Definition broken : File.t := File.mk (str "notes.rs") 3 None.

Definition indexTs : GitHubFile.t :=
  GitHubFile.mk (str "index.ts") (str "index.ts") (str "export {}") 9
    (Some (str "typescript")).

Definition snapshot : GitHubRepo.t :=
  GitHubRepo.mk (str "docs") (str "octo/docs") (str "No description available")
    0 (str "Unknown") [indexTs].

Definition emptyDb : Db := mkDb [] true 0.

(** A network on which nothing can be reached. *)
Definition offline : Network :=
  mkNetwork (fun _ => Rejected) (fun _ => Rejected) (fun _ => Rejected).

(** A network that knows one repository with three entries; the content
    of the second file cannot be fetched. *)
Definition item (name : jsstring) (type : String.string) : ContentItem.t :=
  ContentItem.mk name name (str type) 1 (str "https://raw.example/" ++ name).

Definition listing : list ContentItem.t :=
  [ item (str "a.py") "file"; item (str "src") "dir";
    item (str "b.js") "file"; item (str "go") "file" ].

Definition oneRepo : Network :=
  mkNetwork
    (fun url =>
       if jsstring_eqb url (str "https://api.github.com/repos/octo/docs")
       then Response true
              (Some (RepoJson.mk (str "docs") (str "octo/docs") None 7 None))
       else Response false None)
    (fun url =>
       if jsstring_eqb url
            (str "https://api.github.com/repos/octo/docs/contents")
       then Response true (Some listing)
       else Response false None)
    (fun url =>
       if jsstring_eqb url (str "https://raw.example/b.js") then Rejected
       else Response true (Some (str "x"))).

(** The same network, except that the request for the content of the
    second file is answered with the status 404 and its error page. *)
Definition answers404 : Network :=
  mkNetwork (getRepo oneRepo) (getContents oneRepo)
    (fun url =>
       if jsstring_eqb url (str "https://raw.example/b.js")
       then Response false (Some (str "404: Not Found"))
       else Response true (Some (str "x"))).

(** A network that knows the same repository with a listing made of one
    directory. *)
Definition dirsOnly : Network :=
  mkNetwork
    (fun url =>
       if jsstring_eqb url (str "https://api.github.com/repos/octo/docs")
       then Response true
              (Some (RepoJson.mk (str "docs") (str "octo/docs") None 0 None))
       else Response false None)
    (fun url =>
       if jsstring_eqb url
            (str "https://api.github.com/repos/octo/docs/contents")
       then Response true (Some [item (str "src") "dir"])
       else Response false None)
    (fun _ => Rejected).

End Samples.

(** ** The other handlers of the TextInput component *)

(** [handleFileUpload]: [None] is the [null] file list. *)
Definition handleFileUpload (files : option (list File.t)) (st : State)
  : State :=
  match files with
  | Some fileArray =>
      mkState (currentValue st) (attachedFiles st ++ fileArray)
        (githubRepo st) (githubRepoData st)
  | None => st
  end.

(** [prev.filter((_, i) => i !== index)], the indices counted from [i]. *)
Fixpoint filterIndexFrom {A : Type} (i index : nat) (l : list A) : list A :=
  match l with
  | [] => []
  | x :: l' =>
      if negb (i =? index) then x :: filterIndexFrom (S i) index l'
      else filterIndexFrom (S i) index l'
  end.

Definition removeFile (index : nat) (st : State) : State :=
  mkState (currentValue st) (filterIndexFrom 0 index (attachedFiles st))
    (githubRepo st) (githubRepoData st).

Definition removeGithubRepo (st : State) : State :=
  mkState (currentValue st) (attachedFiles st) (str "") None.

(** The two string literals of [getFileIcon], code unit by code unit as
    the source file holds them (four code units each: U+00F0, U+0178,
    U+201C, then U+201E or U+017D). *)
Definition codeIcon : jsstring := [240; 376; 8220; 8222]%N.
Definition clipIcon : jsstring := [240; 376; 8220; 381]%N.

Definition codeExtensions : list jsstring :=
  List.map str
    ["js"; "ts"; "jsx"; "tsx"; "py"; "java"; "cpp"; "c"; "html"; "css";
     "scss"; "json"; "xml"]%lit.

Section Icons.

Variable toLowerCase : jsstring -> jsstring.

Definition getFileIcon (fileName : jsstring) : jsstring :=
  let extension := toLowerCase (last (split 46 fileName) []) in
  if includes codeExtensions (orElse extension (str "")) then codeIcon
  else clipIcon.

End Icons.

(** ** The routes of one session (GET, PUT) and of its messages (POST) *)

Inductive HttpResult (A : Type) : Type :=
| Ok200 : A -> HttpResult A
| NotFound404 : HttpResult A
| Error500 : HttpResult A.
Arguments Ok200 {A} _.
Arguments NotFound404 {A}.
Arguments Error500 {A}.

(** [findUnique({ where: { id } })] *)
Definition findUnique (db : Db) (id : N) : option CodeSession.t :=
  find (fun s => N.eqb (CodeSession.id s) id) (sessions db).

(** Rewrites the row whose identifier is [id]; [None] when there is
    none (the record-not-found error of an update). *)
Fixpoint updateRow (id : N) (f : CodeSession.t -> CodeSession.t)
    (rows : list CodeSession.t) : option (list CodeSession.t * CodeSession.t) :=
  match rows with
  | [] => None
  | r :: rows' =>
      if N.eqb (CodeSession.id r) id then Some (f r :: rows', f r)
      else match updateRow id f rows' with
           | Some (rows'', r') => Some (r :: rows'', r')
           | None => None
           end
  end.

Module SessionRoute.

(** The messages of a row are kept in the order of their creation, which
    is the order of their timestamps asked for by [orderBy]. *)
Definition GET (db : Db) (id : N) : HttpResult CodeSession.t :=
  if online db then
    match findUnique db id with
    | Some session => Ok200 session
    | None => NotFound404
    end
  else Error500.

(** The body of a PUT request: a field that is absent from the JSON is
    [undefined] and leaves the column as it is. *)
Record PutBody : Type := mkPutBody {
  code : option jsstring;
  language : option jsstring
}.

Definition applyPut (body : PutBody) (s : CodeSession.t) : CodeSession.t :=
  CodeSession.mk (CodeSession.id s)
    (match code body with Some c => c | None => CodeSession.code s end)
    (match language body with Some l => l | None => CodeSession.language s end)
    (CodeSession.title s) (CodeSession.githubRepo s) (CodeSession.messages s).

Definition PUT (db : Db) (id : N) (body : PutBody)
  : Db * HttpResult CodeSession.t :=
  if online db then
    match updateRow id (applyPut body) (sessions db) with
    | Some (rows, session) =>
        (mkDb rows (online db) (nextId db), Ok200 session)
    | None => (db, Error500)
    end
  else (db, Error500).

End SessionRoute.

Module MessagesRoute.

Section Route.

Variable toUpperCase : jsstring -> jsstring.

(** The values of the enumeration [MessageType] that the store accepts. *)
Definition messageType (type : jsstring) : option MessageType :=
  if jsstring_eqb type (str "USER") then Some USER
  else if jsstring_eqb type (str "ASSISTANT") then Some ASSISTANT
  else None.

Definition addMessage (m : ChatMessage.t) (s : CodeSession.t)
  : CodeSession.t :=
  CodeSession.mk (CodeSession.id s) (CodeSession.code s)
    (CodeSession.language s) (CodeSession.title s) (CodeSession.githubRepo s)
    (CodeSession.messages s ++ [m]).

(** [prisma.chatMessage.create]: the type must be a value of the
    enumeration and the session must exist; [None] is the 500 answer. *)
Definition POST (db : Db) (id : N) (content type : jsstring)
  : Db * option ChatMessage.t :=
  match messageType (toUpperCase type) with
  | None => (db, None)
  | Some t =>
      if online db then
        match updateRow id (addMessage (ChatMessage.mk content t))
                (sessions db) with
        | Some (rows, _) =>
            (mkDb rows (online db) (nextId db),
             Some (ChatMessage.mk content t))
        | None => (db, None)
        end
      else (db, None)
  end.

End Route.

End MessagesRoute.

(** ** The editor page *)

Module EditorPage.

Module ChatEntry.
Record t : Type := mk {
  type : jsstring;
  content : jsstring
}.
End ChatEntry.

Record EditorState : Type := mkEditor {
  code : jsstring;
  language : jsstring;
  chatMessages : list ChatEntry.t;
  newMessage : jsstring;
  session : option CodeSession.t
}.

(** The state of a page that has just been mounted. *)
Definition initial : EditorState :=
  mkEditor (str "") (str "javascript") [] (str "") None.

(** The names of the enumeration as the JSON answer carries them. *)
Definition typeName (t : MessageType) : jsstring :=
  match t with
  | USER => str "USER"
  | ASSISTANT => str "ASSISTANT"
  end.


Section Page.

Variable toLowerCase : jsstring -> jsstring.
Variable toUpperCase : jsstring -> jsstring.

(** [fetchSession]: the new state, and whether the router is sent back
    to the home page. *)
Definition fetchSession (db : Db) (id : N) (st : EditorState)
  : EditorState * bool :=
  match SessionRoute.GET db id with
  | Ok200 s =>
      (mkEditor (orElse (CodeSession.code s) (str ""))
         (orElse (CodeSession.language s) (str "javascript"))
         (List.map
            (fun msg =>
               ChatEntry.mk (toLowerCase (typeName (ChatMessage.type msg)))
                 (ChatMessage.content msg))
            (CodeSession.messages s))
         (newMessage st) (Some s),
       false)
  | _ => (st, true)
  end.


(** The name of the downloaded file. *)
Definition downloadName (language : jsstring) : jsstring :=
  str "code."
  ++ (if jsstring_eqb language (str "javascript") then str "js"
      else language).

(** [handleSaveCode]: the store after the PUT request and the name of the
    file that is downloaded, if any. *)
Definition handleSaveCode (st : EditorState) (db : Db)
  : Db * option jsstring :=
  match session st with
  | Some s =>
      (fst (SessionRoute.PUT db (CodeSession.id s)
              (SessionRoute.mkPutBody (Some (code st)) (Some (language st)))),
       Some (downloadName (language st)))
  | None => (db, None)
  end.

End Page.

End EditorPage.

(** ** The sidebar *)

Module Sidebar.

Fixpoint digits (d : Decimal.uint) : jsstring :=
  match d with
  | Decimal.Nil => []
  | Decimal.D0 d => 48%N :: digits d
  | Decimal.D1 d => 49%N :: digits d
  | Decimal.D2 d => 50%N :: digits d
  | Decimal.D3 d => 51%N :: digits d
  | Decimal.D4 d => 52%N :: digits d
  | Decimal.D5 d => 53%N :: digits d
  | Decimal.D6 d => 54%N :: digits d
  | Decimal.D7 d => 55%N :: digits d
  | Decimal.D8 d => 56%N :: digits d
  | Decimal.D9 d => 57%N :: digits d
  end.

(** The decimal writing of a natural number, as a template literal
    prints it. *)
Definition decimal (n : Z) : jsstring := digits (N.to_uint (Z.to_N n)).

(** [formatTimestamp].  [date] is the time value of [new Date(timestamp)]
    in milliseconds, [None] when the date is invalid (its time value is
    NaN, every comparison is false and the last branch prints it); [now]
    is the time value of the current date.  Time values are integers, on
    which [Math.floor] of a quotient is the floor division. *)
Definition formatTimestamp (date : option Z) (now : Z) : jsstring :=
  match date with
  | None => str "NaNw ago"
  | Some date =>
      let diffInHours := ((now - date) / (1000 * 60 * 60))%Z in
      if (diffInHours <? 1)%Z then str "Just now"
      else if (diffInHours <? 24)%Z then decimal diffInHours ++ str "h ago"
      else if (diffInHours <? 48)%Z then str "Yesterday"
      else
        let diffInDays := (diffInHours / 24)%Z in
        if (diffInDays <? 7)%Z then decimal diffInDays ++ str "d ago"
        else decimal (diffInDays / 7)%Z ++ str "w ago"
  end.

End Sidebar.

(** ** Predicates used in the statements *)

(** The language tags that occur as values of [languageMap]. *)
Definition tableLanguages : list jsstring :=
  List.map str
    ["javascript"; "typescript"; "python"; "java"; "cpp"; "c"; "html";
     "css"; "scss"; "json"; "xml"; "php"; "ruby"; "go"; "rust"; "kotlin";
     "swift"; "dart"; "vue"; "svelte"]%lit.

(** The property names that every plain object inherits.  A file name
    whose last segment is one of them makes [languageMap[extension]] leave
    the table; such names are set apart in the statements. *)
Definition inheritedKeys : list jsstring :=
  List.map str
    ["constructor"; "__proto__"; "hasOwnProperty"; "isPrototypeOf";
     "propertyIsEnumerable"; "toLocaleString"; "toString"; "valueOf";
     "__defineGetter__"; "__defineSetter__"; "__lookupGetter__";
     "__lookupSetter__"]%lit.

Definition plainName (toLowerCase : jsstring -> jsstring)
    (fileName : jsstring) : bool :=
  negb (includes inheritedKeys (toLowerCase (last (split 46 fileName) []))).

(** The name of the primary file of a submit, if there is one. *)
Definition primaryName (st : State) : option jsstring :=
  let localName :=
    match attachedFiles st with
    | firstFile :: _ => Some (File.name firstFile)
    | [] => None
    end in
  match githubRepoData st with
  | Some repo =>
      match GitHubRepo.files repo with
      | firstFile :: _ => Some (GitHubFile.name firstFile)
      | [] => localName
      end
  | None => localName
  end.

(** No line feed occurs in the string. *)
Definition singleLine (s : jsstring) : bool :=
  forallb (fun c => negb (N.eqb c LF)) s.

(** * Properties *)

(** ** Strings *)

Lemma truthy_length (s : jsstring) : truthy s = negb (length s =? 0).
Proof. destruct s; reflexivity. Qed.

Lemma trimStart_nil_iff (s : jsstring) :
  trimStart s = [] <-> forallb isWhiteSpace s = true.
Proof.
  induction s as [|c s IH]; simpl.
  - tauto.
  - destruct (isWhiteSpace c); simpl.
    + exact IH.
    + split; discriminate.
Qed.

Lemma trimStart_suffix (s : jsstring) :
  exists ws, s = ws ++ trimStart s /\ forallb isWhiteSpace ws = true.
Proof.
  induction s as [|c s [ws [E W]]]; simpl.
  - exists []. split; reflexivity.
  - destruct (isWhiteSpace c) eqn:Hc.
    + exists (c :: ws). simpl. rewrite Hc, W. split; [f_equal; exact E|reflexivity].
    + exists []. split; reflexivity.
Qed.

Lemma forallb_rev (p : N -> bool) (s : jsstring) :
  forallb p (rev s) = forallb p s.
Proof.
  induction s as [|c s IH]; simpl; [reflexivity|].
  rewrite forallb_app, IH. simpl. rewrite andb_true_r. apply andb_comm.
Qed.

Lemma trim_nil_iff (s : jsstring) :
  trim s = [] <-> forallb isWhiteSpace s = true.
Proof.
  unfold trim, trimEnd. split.
  - intros H.
    assert (H1 : trimStart (rev (trimStart s)) = []).
    { destruct (trimStart (rev (trimStart s))) as [|c l]; [reflexivity|].
      apply (f_equal (@length N)) in H. rewrite length_rev in H.
      discriminate H. }
    apply trimStart_nil_iff in H1. rewrite forallb_rev in H1.
    destruct (trimStart_suffix s) as [ws [E W]].
    rewrite E, forallb_app, W, H1. reflexivity.
  - intros H. apply trimStart_nil_iff in H. rewrite H. reflexivity.
Qed.

Lemma trim_length_zero (s : jsstring) :
  (length (trim s) =? 0) = forallb isWhiteSpace s.
Proof.
  destruct (forallb isWhiteSpace s) eqn:W.
  - apply trim_nil_iff in W. rewrite W. reflexivity.
  - destruct (trim s) eqn:T; [|reflexivity].
    apply trim_nil_iff in T. congruence.
Qed.

Lemma split_cutAt (sep : N) (s : jsstring) :
  split sep s = TitleSpec.cutAt (fun c => N.eqb c sep) s.
Proof.
  induction s as [|c s IH]; simpl; [reflexivity|]. rewrite IH. reflexivity.
Qed.

Lemma cutAt_pieces (p : N -> bool) (q : N -> bool) (s : jsstring) :
  forallb q s = true ->
  Forall (fun piece => forallb q piece = true) (TitleSpec.cutAt p s).
Proof.
  induction s as [|c s IH]; simpl; intros H.
  - constructor; [reflexivity|constructor].
  - apply andb_true_iff in H. destruct H as [Hc Hs]. specialize (IH Hs).
    destruct (p c).
    + constructor; [reflexivity|exact IH].
    + destruct (TitleSpec.cutAt p s) as [|h t]; simpl.
      * constructor; [simpl; rewrite Hc; reflexivity|constructor].
      * inversion IH; subst. constructor; [simpl; rewrite Hc; assumption|assumption].
Qed.

Lemma join_length_head (sep w : jsstring) (ws : list jsstring) :
  length w <= length (join sep (w :: ws)).
Proof.
  destruct ws; simpl; [lia|]. rewrite length_app. lia.
Qed.

(** The pieces of the regular-expression split and the pieces cut at every
    white-space unit differ by empty strings only. *)
Lemma splitWsFrom_cutAt (s : jsstring) :
  (exists h t t',
     splitWsFrom false s = h :: t /\ TitleSpec.cutAt isWhiteSpace s = h :: t'
     /\ filter truthy t = filter truthy t')
  /\ filter truthy (splitWsFrom true s)
     = filter truthy (TitleSpec.cutAt isWhiteSpace s).
Proof.
  induction s as [|c s [[h [t [t' [E1 [E2 E3]]]]] IHt]]; simpl.
  - split; [exists [], [], []; repeat split|reflexivity].
  - destruct (isWhiteSpace c).
    + split.
      * exists [], (splitWsFrom true s), (TitleSpec.cutAt isWhiteSpace s).
        repeat split. exact IHt.
      * simpl. exact IHt.
    + rewrite E1, E2. simpl. split.
      * exists (c :: h), t, t'. repeat split. exact E3.
      * rewrite E3. reflexivity.
Qed.

Lemma filter_filter_implies {A : Type} (p q : A -> bool) (l : list A) :
  (forall x, p x = true -> q x = true) ->
  filter p (filter q l) = filter p l.
Proof.
  intros H. induction l as [|x l IH]; simpl; [reflexivity|].
  destruct (q x) eqn:Q; simpl.
  - rewrite IH. reflexivity.
  - destruct (p x) eqn:P; [apply H in P; congruence|exact IH].
Qed.

Lemma filter_splitWs (p : jsstring -> bool) (s : jsstring) :
  (forall w, p w = true -> truthy w = true) ->
  filter p (splitWs s) = filter p (TitleSpec.tokens s).
Proof.
  intros H. unfold splitWs, TitleSpec.tokens.
  destruct (splitWsFrom_cutAt s) as [[h [t [t' [E1 [E2 E3]]]]] _].
  rewrite (filter_ext (fun t0 => negb (TitleSpec.isEmpty t0)) truthy)
    by (intros a; symmetry; apply truthy_length).
  rewrite (filter_filter_implies p truthy) by exact H.
  rewrite <- (filter_filter_implies p truthy (splitWsFrom false s)) by exact H.
  rewrite <- (filter_filter_implies p truthy (TitleSpec.cutAt _ s)) by exact H.
  rewrite E1, E2. simpl. rewrite E3. reflexivity.
Qed.

Lemma In_firstn {A : Type} (n : nat) (l : list A) (x : A) :
  In x (firstn n l) -> In x l.
Proof.
  revert l. induction n as [|n IH]; intros [|y l]; simpl; try tauto.
  intros [H|H]; [left; exact H|right; apply IH, H].
Qed.

Lemma existsb_pointwise {A : Type} (p q : A -> bool) (l : list A) :
  (forall x, p x = q x) -> existsb p l = existsb q l.
Proof.
  intros H. induction l as [|x l IH]; simpl; [reflexivity|].
  rewrite H, IH. reflexivity.
Qed.

(** ** The title generator *)

Section TitleProperties.

Variable toLowerCase : jsstring -> jsstring.
Variable toUpperCase : jsstring -> jsstring.

Lemma blank_guard (code : jsstring) :
  negb (truthy code) || (length (trim code) =? 0) = TitleSpec.isBlank code.
Proof.
  rewrite trim_length_zero. unfold TitleSpec.isBlank.
  destruct code; reflexivity.
Qed.

Lemma keepWord_long (w : jsstring) :
  keepWord toLowerCase w = true -> 2 < length w.
Proof.
  unfold keepWord. intros H. apply andb_true_iff in H.
  destruct H as [H _]. apply Nat.ltb_lt in H. exact H.
Qed.

Lemma titleWords_long (code : jsstring) :
  Forall (fun w => 2 < length w) (titleWords toLowerCase code).
Proof.
  unfold titleWords. apply Forall_forall. intros w Hw.
  apply In_firstn in Hw.
  apply filter_In in Hw. destruct Hw as [_ Hw]. apply keepWord_long, Hw.
Qed.

Lemma blank_cleanCode (code : jsstring) :
  TitleSpec.isBlank code = true -> cleanCode code = [].
Proof.
  unfold TitleSpec.isBlank, cleanCode. intros H.
  rewrite split_cutAt.
  pose proof (cutAt_pieces (fun c => N.eqb c LF) isWhiteSpace code H) as F.
  induction F as [|piece pieces Hp _ IH]; simpl; [reflexivity|].
  apply trim_nil_iff in Hp. rewrite Hp. simpl. exact IH.
Qed.

Lemma blank_titleWords (code : jsstring) :
  TitleSpec.isBlank code = true -> titleWords toLowerCase code = [].
Proof.
  intros H. unfold titleWords. rewrite (blank_cleanCode code H).
  reflexivity.
Qed.

Lemma truncated_length (s : jsstring) :
  30 < length s -> length (substring0 27 s ++ str "...") = 30.
Proof.
  intros H. unfold substring0. rewrite length_app, length_firstn.
  change (length (str "...")) with 3. lia.
Qed.

(** The three outcomes of the generator. *)
Lemma generateSessionTitle_cases (code language : jsstring) :
  generateSessionTitle toLowerCase toUpperCase code language =
  if TitleSpec.isBlank code then str "New " ++ language ++ str " Session"
  else match titleWords toLowerCase code with
       | [] => (toUpperCase (charAt0 language) ++ slice1 language) ++ str " Code"
       | _ :: _ =>
           let joined := join (str " ") (titleWords toLowerCase code) in
           if 30 <? length joined then firstn 27 joined ++ str "..."
           else joined
       end.
Proof.
  unfold generateSessionTitle. rewrite blank_guard.
  destruct (TitleSpec.isBlank code); [reflexivity|].
  destruct (titleWords toLowerCase code); reflexivity.
Qed.

(** Lengths of the title on its three paths. *)
Lemma generateSessionTitle_lengths (code language : jsstring) :
  let title := generateSessionTitle toLowerCase toUpperCase code language in
  let joined := join (str " ") (titleWords toLowerCase code) in
  (forall code' language',
      code' = code -> language' = language ->
      generateSessionTitle toLowerCase toUpperCase code' language' = title)
  /\ title <> []
  /\ length title =
       (if TitleSpec.isBlank code then length language + 12
        else match titleWords toLowerCase code with
             | [] => length (toUpperCase (charAt0 language)
                             ++ slice1 language) + 5
             | _ :: _ => Nat.min (length joined) 30
             end)
  /\ (titleWords toLowerCase code <> [] -> length title <= 30)
  /\ (length language <= 18 ->
      length (toUpperCase (charAt0 language) ++ slice1 language) <= 25 ->
      length title <= 30)
  /\ (30 < length joined -> title = firstn 27 joined ++ str "...").
Proof.
  cbv zeta. rewrite generateSessionTitle_cases.
  pose proof (titleWords_long code) as Long.
  pose proof (blank_titleWords code) as Blank.
  split; [intros ? ? -> ->; apply generateSessionTitle_cases|].
  destruct (TitleSpec.isBlank code).
  - rewrite (Blank eq_refl). simpl. repeat split.
    + discriminate.
    + rewrite length_app. simpl. lia.
    + intros H. contradiction H. reflexivity.
    + intros H _. rewrite length_app. simpl. lia.
    + intros H. inversion H.
  - clear Blank. destruct (titleWords toLowerCase code) as [|w ws] eqn:E.
    + repeat split.
      * intros H. apply (f_equal (@length N)) in H.
        rewrite length_app in H. simpl in H. lia.
      * rewrite length_app. reflexivity.
      * intros H. contradiction H. reflexivity.
      * intros _ H. rewrite length_app.
        change (length (str " Code")) with 5. lia.
      * simpl. intros H. inversion H.
    + cbv zeta.
      pose proof (join_length_head (str " ") w ws) as Hj.
      inversion Long as [|? ? Hw _]; subst.
      destruct (30 <? length (join (str " ") (w :: ws))) eqn:L.
      * apply Nat.ltb_lt in L.
        pose proof (truncated_length _ L) as T. unfold substring0 in T.
        repeat split.
        -- intros H. rewrite H in T. discriminate T.
        -- rewrite T. lia.
        -- intros _. rewrite T. lia.
        -- intros _ _. rewrite T. lia.
      * apply Nat.ltb_ge in L. repeat split.
        -- intros H. rewrite H in Hj. simpl in Hj. lia.
        -- lia.
        -- intros _. exact L.
        -- intros _ _. exact L.
        -- intros H. lia.
Qed.

(** *** Agreement with the algorithm of the specification *)

Lemma keepLine_spec (line : jsstring) :
  keepLine line = negb (TitleSpec.isDroppedLine line).
Proof.
  unfold keepLine, TitleSpec.isDroppedLine, TitleSpec.isEmpty.
  rewrite truthy_length, negb_involutive.
  destruct (length line =? 0); [reflexivity|].
  unfold TitleSpec.commentLeaders. simpl existsb.
  destruct (startsWith line (str "//")); [reflexivity|].
  destruct (startsWith line (str "/*")); [reflexivity|].
  destruct (startsWith line (str "*")); [reflexivity|].
  destruct (startsWith line (str "#")); [reflexivity|].
  destruct (startsWith line (str "<!--")); reflexivity.
Qed.

Lemma cleanCode_spec (code : jsstring) :
  cleanCode code = TitleSpec.keptLines code.
Proof.
  unfold cleanCode, TitleSpec.keptLines, TitleSpec.lines.
  rewrite split_cutAt.
  rewrite (filter_ext keepLine (fun l => negb (TitleSpec.isDroppedLine l)))
    by exact keepLine_spec.
  reflexivity.
Qed.

Lemma isCodeSymbol_spec (c : N) :
  isCodeSymbol c = existsb (N.eqb c) TitleSpec.symbols.
Proof.
  unfold isCodeSymbol, TitleSpec.symbols. simpl existsb.
  repeat match goal with
         | |- context [N.eqb c ?k] => destruct (N.eqb c k); [reflexivity|]
         end.
  reflexivity.
Qed.

Lemma replaceSymbols_spec (s : jsstring) :
  replaceSymbols s = TitleSpec.stripSymbols s.
Proof.
  unfold replaceSymbols, TitleSpec.stripSymbols. apply map_ext.
  intros c. rewrite isCodeSymbol_spec. reflexivity.
Qed.

Lemma jsstring_eqb_sym (a b : jsstring) : jsstring_eqb a b = jsstring_eqb b a.
Proof.
  unfold jsstring_eqb.
  destruct (list_eq_dec N.eq_dec a b), (list_eq_dec N.eq_dec b a);
    congruence.
Qed.

Lemma keepWord_spec (w : jsstring) :
  keepWord toLowerCase w = negb (TitleSpec.isDroppedToken toLowerCase w).
Proof.
  unfold keepWord, TitleSpec.isDroppedToken, TitleSpec.isStopWord, includes.
  rewrite negb_orb. f_equal.
  - rewrite Nat.ltb_antisym. reflexivity.
  - f_equal. apply existsb_pointwise. intros k. apply jsstring_eqb_sym.
Qed.

Lemma titleWords_spec (code : jsstring) :
  titleWords toLowerCase code = TitleSpec.survivors toLowerCase code.
Proof.
  unfold titleWords, TitleSpec.survivors.
  rewrite cleanCode_spec, replaceSymbols_spec. f_equal.
  rewrite filter_splitWs.
  - apply filter_ext. exact keepWord_spec.
  - intros w H. apply keepWord_long in H. destruct w; [inversion H|reflexivity].
Qed.

Lemma capitalize_spec (language : jsstring) :
  toUpperCase (charAt0 language) ++ slice1 language
  = TitleSpec.Capitalize toUpperCase language.
Proof.
  destruct language as [|c rest]; simpl; [apply app_nil_r|reflexivity].
Qed.

Lemma generateSessionTitle_spec (code language : jsstring) :
  generateSessionTitle toLowerCase toUpperCase code language
  = TitleSpec.TitleDeriver toLowerCase toUpperCase code language.
Proof.
  rewrite generateSessionTitle_cases. unfold TitleSpec.TitleDeriver.
  rewrite titleWords_spec, capitalize_spec.
  destruct (TitleSpec.isBlank code); [reflexivity|].
  destruct (TitleSpec.survivors toLowerCase code) as [|w ws]; [reflexivity|].
  cbv zeta. unfold TitleSpec.ellipsize. change (str " ") with [SPACE].
  rewrite Nat.ltb_antisym.
  destruct (length (join [SPACE] (w :: ws)) <=? 30); reflexivity.
Qed.

(** C1 (amended).  The generator is a function of its two arguments and
    never returns the empty string.  Blank code gives New, the language
    and Session; code without a surviving token gives the capitalised
    language followed by Code; otherwise the title is the surviving
    tokens joined by single spaces, or their first 27 code units followed
    by three dots when they exceed 30, so that it has at most 30 code
    units.  On the two fallback paths nothing is truncated: the title has
    [length language + 12] code units, or five more than the capitalised
    language; both stay within 30 code units for a language of at most 18
    code units whose capitalised form has at most 25. *)
Theorem generateSessionTitle_shape (code language : jsstring) :
  let title := generateSessionTitle toLowerCase toUpperCase code language in
  let joined := join (str " ") (titleWords toLowerCase code) in
  titleWords toLowerCase code = TitleSpec.survivors toLowerCase code
  /\ title =
     (if TitleSpec.isBlank code
      then str "New " ++ language ++ str " Session"
      else match titleWords toLowerCase code with
           | [] => TitleSpec.Capitalize toUpperCase language ++ str " Code"
           | _ :: _ =>
               if 30 <? length joined then firstn 27 joined ++ str "..."
               else joined
           end)
  /\ (forall code' language',
         code' = code -> language' = language ->
         generateSessionTitle toLowerCase toUpperCase code' language' = title)
  /\ title <> []
  /\ length title =
       (if TitleSpec.isBlank code then length language + 12
        else match titleWords toLowerCase code with
             | [] => length (toUpperCase (charAt0 language)
                             ++ slice1 language) + 5
             | _ :: _ => Nat.min (length joined) 30
             end)
  /\ (titleWords toLowerCase code <> [] -> length title <= 30)
  /\ (length language <= 18 ->
      length (toUpperCase (charAt0 language) ++ slice1 language) <= 25 ->
      length title <= 30)
  /\ (30 < length joined -> title = firstn 27 joined ++ str "...").
Proof.
  cbv zeta. split; [apply titleWords_spec|]. split.
  - rewrite generateSessionTitle_cases, capitalize_spec. reflexivity.
  - exact (generateSessionTitle_lengths code language).
Qed.

End TitleProperties.

(** C2.  The generator computes the algorithm of the specification on
    every input: blank code gives the New-language-Session title, comment
    and empty lines are dropped, the eleven symbols become spaces, short
    tokens and stop words are dropped, the first four survivors are joined
    (and shortened beyond 30 code units), and the capitalised language
    followed by Code is the title when nothing survives. *)
Theorem generateSessionTitle_follows_algorithm :
  (forall toLowerCase toUpperCase code language,
      generateSessionTitle toLowerCase toUpperCase code language
      = TitleSpec.TitleDeriver toLowerCase toUpperCase code language)
  /\ (forall toLowerCase toUpperCase,
         generateSessionTitle toLowerCase toUpperCase (str "") (str "python")
         = str "New python Session")
  /\ generateSessionTitle asciiToLowerCase asciiToUpperCase
       (str "// just a comment" ++ [LF] ++ str "   ") (str "javascript")
     = str "Javascript Code".
Proof.
  split; [exact generateSessionTitle_spec|].
  split; [reflexivity|]. vm_compute. reflexivity.
Qed.

(** The title of a one-line function keeps the only token that is neither
    short nor a stop word. *)
Example title_of_add :
  generateSessionTitle asciiToLowerCase asciiToUpperCase
    (str "function add(a, b) { return a + b; }") (str "javascript")
  = str "add".
Proof. vm_compute. reflexivity. Qed.

(** C1, as stated, fails: with blank code the title embeds the whole
    language string and is not shortened. *)
Lemma generateSessionTitle_longer_than_30 :
  ~ length (generateSessionTitle asciiToLowerCase asciiToUpperCase
              (str "") (str "objective-c-plus-plus")) <= 30.
Proof. vm_compute. lia. Qed.

Lemma generateSessionTitle_shape_witness :
  generateSessionTitle asciiToLowerCase asciiToUpperCase
    (str "configureApplicationRouter registerMiddleware") (str "typescript")
  = str "configureApplicationRouter ...".
Proof.
  destruct (generateSessionTitle_shape asciiToLowerCase asciiToUpperCase
              (str "configureApplicationRouter registerMiddleware")
              (str "typescript")) as [_ [_ [_ [_ [_ [_ [_ H]]]]]]].
  apply H. vm_compute. lia.
Defined.

(** ** Repository resolution *)

Section ResolutionProperties.

Variable toLowerCase : jsstring -> jsstring.

Lemma selectedItems_length (contents : list ContentItem.t) :
  length (selectedItems contents) <= 10.
Proof. unfold selectedItems. apply firstn_le_length. Qed.

Lemma selectedItems_files (contents : list ContentItem.t) :
  Forall (fun item => ContentItem.type item = str "file")
    (selectedItems contents).
Proof.
  unfold selectedItems. apply Forall_forall. intros item H.
  apply In_firstn, filter_In in H. destruct H as [_ H].
  unfold isFileItem, jsstring_eqb in H.
  destruct (list_eq_dec N.eq_dec (ContentItem.type item) (str "file"));
    [assumption|discriminate].
Qed.

Lemma filter_all {A : Type} (p : A -> bool) (l : list A) :
  forallb p l = true -> filter p l = l.
Proof.
  induction l as [|x l IH]; simpl; [reflexivity|].
  intros H. apply andb_true_iff in H. destruct H as [Hx Hl].
  rewrite Hx, (IH Hl). reflexivity.
Qed.

(** A listing made of files only contributes its first ten entries, in
    listing order. *)
Lemma selectedItems_all_files (contents : list ContentItem.t) :
  forallb isFileItem contents = true ->
  selectedItems contents = firstn 10 contents.
Proof. intros H. unfold selectedItems. rewrite (filter_all _ _ H). reflexivity. Qed.

Lemma fetchFile_language (net : Network) (item : ContentItem.t)
    (f : GitHubFile.t) :
  fetchFile toLowerCase net item = Some f ->
  GitHubFile.language f
  = Some (detectLanguageFromFile toLowerCase (ContentItem.name item)).
Proof.
  unfold fetchFile.
  destruct (getText net (ContentItem.download_url item)) as [|ok [content|]];
    try discriminate.
  intros H. injection H as <-. reflexivity.
Qed.

(** The files that survive [filter(Boolean)] are the items whose content
    could be fetched, in the order of the items. *)
Lemma resolved_files (net : Network) (items : list ContentItem.t) :
  Forall2
    (fun f item =>
       GitHubFile.name f = ContentItem.name item
       /\ GitHubFile.path f = ContentItem.path item
       /\ GitHubFile.size f = ContentItem.size item
       /\ exists ok, getText net (ContentItem.download_url item)
                     = Response ok (Some (GitHubFile.content f)))
    (filterBoolean (List.map (fetchFile toLowerCase net) items))
    (filter
       (fun item =>
          match getText net (ContentItem.download_url item) with
          | Response _ (Some _) => true
          | _ => false
          end) items).
Proof.
  induction items as [|item items IH]; simpl; [constructor|].
  unfold fetchFile at 1.
  destruct (getText net (ContentItem.download_url item))
    as [|ok [content|]] eqn:E; simpl; try exact IH.
  constructor; [|exact IH]. simpl. repeat split. exists ok. exact E.
Qed.

(** Once the metadata and the listing have been obtained, the resolution
    returns a snapshot whatever becomes of the file fetches: its files are
    the selected entries whose request and body did not reject, in
    listing order, each with the text that was answered, whatever the
    status of the answer. *)
Theorem file_fetch_failures_are_swallowed
    (net : Network) (repoUrl owner repo : jsstring)
    (repoData : RepoJson.t) (contents : list ContentItem.t) :
  matchRepo repoUrl = Some (owner, repo) ->
  okBody (getRepo net (repoApiUrl owner repo)) = Some repoData ->
  okBody (getContents net (repoApiUrl owner repo ++ str "/contents"))
  = Some contents ->
  exists snapshot,
    fetchGitHubRepo toLowerCase net repoUrl = Some snapshot
    /\ Forall2
         (fun f item =>
            GitHubFile.name f = ContentItem.name item
            /\ GitHubFile.path f = ContentItem.path item
            /\ GitHubFile.size f = ContentItem.size item
            /\ exists ok, getText net (ContentItem.download_url item)
                          = Response ok (Some (GitHubFile.content f)))
         (GitHubRepo.files snapshot)
         (filter
            (fun item =>
               match getText net (ContentItem.download_url item) with
               | Response _ (Some _) => true
               | _ => false
               end) (selectedItems contents)).
Proof.
  intros Hm Hr Hc. unfold fetchGitHubRepo. rewrite Hm, Hr, Hc.
  eexists. split; [reflexivity|]. simpl. apply resolved_files.
Qed.

Lemma fetchGitHubRepo_no_match (net : Network) (repoUrl : jsstring) :
  matchRepo repoUrl = None -> fetchGitHubRepo toLowerCase net repoUrl = None.
Proof. intros H. unfold fetchGitHubRepo. rewrite H. reflexivity. Qed.

Lemma fetchGitHubRepo_no_metadata (net : Network)
    (repoUrl owner repo : jsstring) :
  matchRepo repoUrl = Some (owner, repo) ->
  okBody (getRepo net (repoApiUrl owner repo)) = None ->
  fetchGitHubRepo toLowerCase net repoUrl = None.
Proof.
  intros Hm Hr. unfold fetchGitHubRepo. rewrite Hm, Hr. reflexivity.
Qed.

Lemma filterBoolean_length {A : Type} (l : list (option A)) :
  length (filterBoolean l) <= length l.
Proof.
  induction l as [|[a|] l IH]; simpl; lia.
Qed.

(** A snapshot never holds more than ten files. *)
Lemma snapshot_files_length (net : Network) (repoUrl : jsstring)
    (snapshot : GitHubRepo.t) :
  fetchGitHubRepo toLowerCase net repoUrl = Some snapshot ->
  length (GitHubRepo.files snapshot) <= 10.
Proof.
  unfold fetchGitHubRepo.
  destruct (matchRepo repoUrl) as [[owner repo]|]; [|discriminate].
  destruct (okBody (getRepo net (repoApiUrl owner repo))); [|discriminate].
  destruct (okBody (getContents net _)) as [contents|]; [|discriminate].
  intros H. injection H as <-. simpl.
  pose proof (filterBoolean_length
                (List.map (fetchFile toLowerCase net) (selectedItems contents))).
  pose proof (selectedItems_length contents).
  rewrite length_map in *. lia.
Qed.

Lemma lookup_value (P : jsstring -> Prop) (key value : jsstring)
    (m : list (jsstring * jsstring)) :
  Forall (fun entry => P (snd entry)) m ->
  lookup key m = Some value -> P value.
Proof.
  induction 1 as [|[k v] m Hv _ IH]; simpl; [discriminate|].
  destruct (jsstring_eqb key k); [|exact IH].
  intros E. injection E as <-. exact Hv.
Qed.

Lemma languageMap_values :
  Forall (fun entry => truthy (snd entry) = true) languageMap.
Proof. unfold languageMap. repeat constructor. Qed.

(** A last segment that is a key of the table selects its language; one
    that is not selects the default. *)
Lemma detectLanguageFromFile_known (fileName language : jsstring) :
  lookup (toLowerCase (last (split 46 fileName) [])) languageMap
  = Some language ->
  detectLanguageFromFile toLowerCase fileName = language.
Proof.
  unfold detectLanguageFromFile. intros H.
  pose proof (lookup_value (fun v => truthy v = true) _ _ _
                languageMap_values H) as T.
  replace (orElse (toLowerCase (last (split 46 fileName) [])) (str ""))
    with (toLowerCase (last (split 46 fileName) []))
    by (destruct (toLowerCase (last (split 46 fileName) [])); reflexivity).
  rewrite H. unfold orElse. rewrite T. reflexivity.
Qed.

Lemma detectLanguageFromFile_unknown (fileName : jsstring) :
  lookup (toLowerCase (last (split 46 fileName) [])) languageMap = None ->
  detectLanguageFromFile toLowerCase fileName = str "javascript".
Proof.
  unfold detectLanguageFromFile. intros H.
  replace (orElse (toLowerCase (last (split 46 fileName) [])) (str ""))
    with (toLowerCase (last (split 46 fileName) []))
    by (destruct (toLowerCase (last (split 46 fileName) [])); reflexivity).
  rewrite H. reflexivity.
Qed.

End ResolutionProperties.

(** ** The submit handler *)

Section SubmitProperties.

Variable toLowerCase : jsstring -> jsstring.
Variable toUpperCase : jsstring -> jsstring.

(** The content chosen when the first file of a snapshot is used. *)
Lemma resolveContent_snapshot (st : State) (repo : GitHubRepo.t)
    (firstFile : GitHubFile.t) (rest : list GitHubFile.t) :
  githubRepoData st = Some repo ->
  GitHubRepo.files repo = firstFile :: rest ->
  resolveContent toLowerCase st =
  (if truthy (trim (currentValue st)) then
     str "// User Input: " ++ currentValue st ++ [LF; LF]
     ++ str "// GitHub Repository: " ++ GitHubRepo.fullName repo ++ [LF]
     ++ str "// File: " ++ GitHubFile.name firstFile ++ [LF]
     ++ GitHubFile.content firstFile
   else GitHubFile.content firstFile,
   orElse (match GitHubFile.language firstFile with
           | Some l => l | None => [] end) (str "javascript")).
Proof.
  intros Hd Hf. unfold resolveContent. rewrite Hd, Hf.
  destruct (truthy (trim (currentValue st))); reflexivity.
Qed.

(** The content chosen on the local path: no snapshot, or a snapshot
    without files. *)
Lemma resolveContent_local (st : State) :
  match githubRepoData st with
  | Some repo => GitHubRepo.files repo = []
  | None => True
  end ->
  resolveContent toLowerCase st =
  match attachedFiles st with
  | firstFile :: _ =>
      match readFileContent firstFile with
      | Some fileContent =>
          (if truthy (trim (currentValue st)) then
             str "// User Input: " ++ currentValue st ++ [LF; LF]
             ++ str "// File: " ++ File.name firstFile ++ [LF] ++ fileContent
           else fileContent,
           detectLanguageFromFile toLowerCase (File.name firstFile))
      | None => (currentValue st, str "javascript")
      end
  | [] => (currentValue st, str "javascript")
  end.
Proof.
  intros H. unfold resolveContent.
  destruct (githubRepoData st) as [repo|]; [rewrite H|];
    (destruct (attachedFiles st) as [|f fs]; [reflexivity|];
     destruct (readFileContent f); [|reflexivity];
     destruct (truthy (trim (currentValue st))); reflexivity).
Qed.

(** C3 (amended).  When a snapshot with at least one file is held, the
    code content and the language come from its first file, whatever
    local files are attached. *)
Theorem snapshot_file_has_priority (st : State) (repo : GitHubRepo.t)
    (firstFile : GitHubFile.t) (rest : list GitHubFile.t) :
  githubRepoData st = Some repo ->
  GitHubRepo.files repo = firstFile :: rest ->
  (forall localFiles,
      resolveContent toLowerCase
        (mkState (currentValue st) localFiles (githubRepo st)
           (githubRepoData st))
      = resolveContent toLowerCase st)
  /\ fst (resolveContent toLowerCase st) =
     (if truthy (trim (currentValue st)) then
        str "// User Input: " ++ currentValue st ++ [LF; LF]
        ++ str "// GitHub Repository: " ++ GitHubRepo.fullName repo ++ [LF]
        ++ str "// File: " ++ GitHubFile.name firstFile ++ [LF]
        ++ GitHubFile.content firstFile
      else GitHubFile.content firstFile)
  /\ snd (resolveContent toLowerCase st) =
     orElse (match GitHubFile.language firstFile with
             | Some l => l | None => [] end) (str "javascript").
Proof.
  intros Hd Hf. rewrite (resolveContent_snapshot st repo firstFile rest Hd Hf).
  split; [|split; reflexivity].
  intros localFiles.
  rewrite (resolveContent_snapshot _ repo firstFile rest) by assumption.
  reflexivity.
Qed.

(** C7.  Composition of the final code.  Text alone is used as it is,
    with the default language.  With a primary file and text that is not
    blank, the code is the user-input line, an empty line, the file header
    (preceded by the repository line for a repository file) and the raw
    content; with blank text it is the raw content. *)
Theorem final_code_composition (st : State) :
  (attachedFiles st = [] -> githubRepoData st = None ->
   resolveContent toLowerCase st = (currentValue st, str "javascript"))
  /\ (forall firstFile rest fileContent,
         githubRepoData st = None ->
         attachedFiles st = firstFile :: rest ->
         readFileContent firstFile = Some fileContent ->
         fst (resolveContent toLowerCase st) =
         if truthy (trim (currentValue st)) then
           str "// User Input: " ++ currentValue st ++ [LF]
           ++ [LF]
           ++ str "// File: " ++ File.name firstFile ++ [LF]
           ++ fileContent
         else fileContent)
  /\ (forall repo firstFile rest,
         githubRepoData st = Some repo ->
         GitHubRepo.files repo = firstFile :: rest ->
         fst (resolveContent toLowerCase st) =
         if truthy (trim (currentValue st)) then
           str "// User Input: " ++ currentValue st ++ [LF]
           ++ [LF]
           ++ str "// GitHub Repository: " ++ GitHubRepo.fullName repo ++ [LF]
           ++ str "// File: " ++ GitHubFile.name firstFile ++ [LF]
           ++ GitHubFile.content firstFile
         else GitHubFile.content firstFile)
  /\ (forall reference,
         resolveContent toLowerCase (mkState (str "hello") [] reference None)
         = (str "hello", str "javascript")).
Proof.
  split; [|split; [|split]].
  - intros Hf Hd. rewrite resolveContent_local by (rewrite Hd; exact I).
    rewrite Hf. reflexivity.
  - intros firstFile rest fileContent Hd Hf Hr.
    rewrite resolveContent_local by (rewrite Hd; exact I).
    rewrite Hf, Hr. destruct (truthy (trim (currentValue st))); reflexivity.
  - intros repo firstFile rest Hd Hf.
    rewrite (resolveContent_snapshot st repo firstFile rest Hd Hf).
    destruct (truthy (trim (currentValue st))); reflexivity.
  - intros reference. reflexivity.
Qed.

(** C8.  Without a snapshot, a first local file that cannot be read
    leaves the user text as the code and the language at its default. *)
Theorem unreadable_file_falls_back (st : State) (firstFile : File.t)
    (rest : list File.t) :
  githubRepoData st = None ->
  attachedFiles st = firstFile :: rest ->
  readFileContent firstFile = None ->
  resolveContent toLowerCase st = (currentValue st, str "javascript")
  /\ SessionRequest.code (requestBody toLowerCase st) = currentValue st
  /\ SessionRequest.language (requestBody toLowerCase st) = str "javascript".
Proof.
  intros Hd Hf Hr.
  assert (E : resolveContent toLowerCase st
              = (currentValue st, str "javascript")).
  { rewrite resolveContent_local by (rewrite Hd; exact I).
    rewrite Hf, Hr. reflexivity. }
  unfold requestBody. rewrite E. repeat split.
Qed.

(** C9.  With blank text, no local file and no snapshot, the handler
    changes nothing: the store keeps its sessions and messages, and no
    navigation takes place. *)
Theorem nothing_to_submit_is_noop (st : State) (db : Db) :
  truthy (trim (currentValue st)) = false ->
  attachedFiles st = [] ->
  githubRepoData st = None ->
  handleSubmit toLowerCase toUpperCase st db = (st, db, None)
  /\ sessions (snd (fst (handleSubmit toLowerCase toUpperCase st db)))
     = sessions db.
Proof.
  intros Ht Hf Hd.
  assert (E : handleSubmit toLowerCase toUpperCase st db = (st, db, None)).
  { unfold handleSubmit, canSubmit. rewrite Ht, Hf, Hd. reflexivity. }
  rewrite E. split; reflexivity.
Qed.

(** The store and the navigation after a submit depend on the state only
    through the guard and the request body. *)
Lemma handleSubmit_effects (st : State) (db : Db) :
  (snd (fst (handleSubmit toLowerCase toUpperCase st db)),
   snd (handleSubmit toLowerCase toUpperCase st db))
  = if canSubmit st then
      (fst (POST toLowerCase toUpperCase db (requestBody toLowerCase st)),
       option_map CodeSession.id
         (snd (POST toLowerCase toUpperCase db (requestBody toLowerCase st))))
    else (db, None).
Proof.
  unfold handleSubmit. destruct (canSubmit st); [|reflexivity].
  destruct (POST toLowerCase toUpperCase db (requestBody toLowerCase st))
    as [db' [session|]]; reflexivity.
Qed.

(** C6 (amended).  A reference that does not match the pattern, or whose
    metadata cannot be fetched, produces no snapshot, and the state is
    left as it was.  A component that held no snapshot still holds none,
    and the following submit sends what it would have sent had no
    reference been typed; a snapshot kept from an earlier reference stays
    attached. *)
Theorem unresolved_reference_changes_nothing (net : Network) (st : State) :
  (matchRepo (trim (githubRepo st)) = None
   \/ exists owner repo,
        matchRepo (trim (githubRepo st)) = Some (owner, repo)
        /\ okBody (getRepo net (repoApiUrl owner repo)) = None) ->
  let after := handleGithubModalSubmit toLowerCase net st in
  let untouched :=
    mkState (currentValue st) (attachedFiles st) (str "") (githubRepoData st) in
  fetchGitHubRepo toLowerCase net (trim (githubRepo st)) = None
  /\ after = st
  /\ (githubRepoData st = None -> githubRepoData after = None)
  /\ canSubmit after = canSubmit untouched
  /\ requestBody toLowerCase after = requestBody toLowerCase untouched
  /\ (forall db,
         snd (fst (handleSubmit toLowerCase toUpperCase after db))
         = snd (fst (handleSubmit toLowerCase toUpperCase untouched db))
         /\ snd (handleSubmit toLowerCase toUpperCase after db)
            = snd (handleSubmit toLowerCase toUpperCase untouched db))
  /\ (githubRepoData st = None ->
      requestBody toLowerCase after
      = requestBody toLowerCase
          (mkState (currentValue st) (attachedFiles st) (str "") None)
      /\ resolveContent toLowerCase after
         = match attachedFiles st with
           | firstFile :: _ =>
               match readFileContent firstFile with
               | Some fileContent =>
                   (if truthy (trim (currentValue st)) then
                      str "// User Input: " ++ currentValue st ++ [LF; LF]
                      ++ str "// File: " ++ File.name firstFile ++ [LF]
                      ++ fileContent
                    else fileContent,
                    detectLanguageFromFile toLowerCase (File.name firstFile))
               | None => (currentValue st, str "javascript")
               end
           | [] => (currentValue st, str "javascript")
           end)
  /\ (forall earlier,
         githubRepoData st = Some earlier ->
         githubRepoData after = Some earlier).
Proof.
  intros H after untouched.
  assert (F : fetchGitHubRepo toLowerCase net (trim (githubRepo st)) = None).
  { destruct H as [H|[owner [repo [Hm Hr]]]].
    - apply fetchGitHubRepo_no_match, H.
    - apply (fetchGitHubRepo_no_metadata toLowerCase net _ owner repo Hm Hr). }
  assert (A : after = st).
  { unfold after, handleGithubModalSubmit. rewrite F.
    destruct (truthy (trim (githubRepo st))); reflexivity. }
  assert (C : canSubmit after = canSubmit untouched) by (rewrite A; reflexivity).
  assert (B : requestBody toLowerCase after = requestBody toLowerCase untouched)
    by (rewrite A; reflexivity).
  split; [exact F|]. split; [exact A|]. split; [rewrite A; tauto|].
  split; [exact C|]. split; [exact B|].
  split; [|split].
  - intros db.
    pose proof (handleSubmit_effects after db) as E1.
    pose proof (handleSubmit_effects untouched db) as E2.
    rewrite C, B in E1. rewrite <- E2 in E1.
    injection E1 as E3 E4. split; assumption.
  - intros Hd. split.
    + rewrite B. unfold untouched. rewrite Hd. reflexivity.
    + rewrite A. apply resolveContent_local. rewrite Hd. exact I.
  - intros earlier Hd. rewrite A. exact Hd.
Qed.

Lemma truthy_orElse (a b : jsstring) :
  truthy b = true -> truthy (orElse a b) = true.
Proof. unfold orElse. destruct a; simpl; [tauto|reflexivity]. Qed.

(** C10 (amended).  A snapshot without files plays no part in the choice
    of the code and of the language, which are those of the local path; it
    is still sent and, on a store that is reachable, stored in the
    githubRepo field of the one session that is created, and the seed
    message names it when the user text is empty (otherwise the seed
    message is the user text).  (The stored session is stated for a first
    local file whose name does not end in an inherited property name.) *)
Theorem empty_snapshot_is_ignored_for_content (st : State)
    (repo : GitHubRepo.t) :
  githubRepoData st = Some repo ->
  GitHubRepo.files repo = [] ->
  let payload :=
    RepoPayload.mk (GitHubRepo.name repo) (GitHubRepo.fullName repo) [] in
  let seed :=
    orElse (currentValue st)
      (str "Opened GitHub repository: " ++ GitHubRepo.fullName repo) in
  resolveContent toLowerCase st
  = resolveContent toLowerCase
      (mkState (currentValue st) (attachedFiles st) (githubRepo st) None)
  /\ SessionRequest.githubRepo (requestBody toLowerCase st) = Some payload
  /\ SessionRequest.initialMessage (requestBody toLowerCase st) = seed
  /\ (currentValue st = [] ->
      seed = str "Opened GitHub repository: " ++ GitHubRepo.fullName repo)
  /\ (forall db,
        online db = true ->
        match attachedFiles st with
        | firstFile :: _ => plainName toLowerCase (File.name firstFile) = true
        | [] => True
        end ->
        exists session,
          fst (fst (handleSubmit toLowerCase toUpperCase st db))
          = mkState (str "") [] (str "") None
          /\ sessions (snd (fst (handleSubmit toLowerCase toUpperCase st db)))
             = sessions db ++ [session]
          /\ snd (handleSubmit toLowerCase toUpperCase st db)
             = Some (CodeSession.id session)
          /\ CodeSession.code session = fst (resolveContent toLowerCase st)
          /\ CodeSession.githubRepo session = Some payload
          /\ CodeSession.messages session = [ChatMessage.mk seed USER]).
Proof.
  intros Hd Hf payload seed.
  assert (Hreq : SessionRequest.githubRepo (requestBody toLowerCase st)
                 = Some payload
                 /\ SessionRequest.initialMessage (requestBody toLowerCase st)
                    = seed).
  { unfold requestBody. destruct (resolveContent toLowerCase st).
    simpl. rewrite Hd, Hf. split; reflexivity. }
  destruct Hreq as [Hp Hs].
  split.
  { rewrite (resolveContent_local st) by (rewrite Hd; exact Hf).
    rewrite (resolveContent_local (mkState _ _ _ None)) by exact I.
    reflexivity. }
  split; [exact Hp|]. split; [exact Hs|].
  split; [intros E; unfold seed; rewrite E; reflexivity|].
  intros db Hon _. unfold handleSubmit, canSubmit. rewrite Hd, orb_true_r.
  unfold POST, prismaCreate. rewrite Hon, Hp, Hs.
  assert (T : truthy seed = true) by (apply truthy_orElse; reflexivity).
  rewrite T. cbn [fst snd sessions].
  eexists. split; [reflexivity|]. split; [reflexivity|].
  cbn [CodeSession.id CodeSession.code CodeSession.githubRepo
       CodeSession.messages].
  split; [reflexivity|].
  unfold requestBody. destruct (resolveContent toLowerCase st). simpl.
  repeat split.
Qed.

End SubmitProperties.

(** ** The handlers at concrete inputs *)

(** C3, as stated, fails: the reference is resolved into a snapshot, but
    the snapshot holds no file and does not take priority; the code and
    the language are those of the local file. *)
Lemma empty_snapshot_yields_to_local_file :
  handleGithubModalSubmit asciiToLowerCase Samples.dirsOnly
    (mkState (str "") [Samples.mainPy] (str "https://github.com/octo/docs")
       None)
  = mkState (str "") [Samples.mainPy] (str "https://github.com/octo/docs")
      (Some Samples.emptySnapshot)
  /\ resolveContent asciiToLowerCase
       (mkState (str "") [Samples.mainPy] (str "https://github.com/octo/docs")
          (Some Samples.emptySnapshot))
     = (str "print(1)", str "python").
Proof. split; vm_compute; reflexivity. Qed.

Lemma snapshot_file_has_priority_witness :
  resolveContent asciiToLowerCase
    (mkState (str "fix it") [Samples.mainPy] (str "") (Some Samples.snapshot))
  = resolveContent asciiToLowerCase
      (mkState (str "fix it") [] (str "") (Some Samples.snapshot))
  /\ snd (resolveContent asciiToLowerCase
            (mkState (str "fix it") [] (str "") (Some Samples.snapshot)))
     = str "typescript".
Proof.
  pose proof
    (snapshot_file_has_priority asciiToLowerCase
       (mkState (str "fix it") [] (str "") (Some Samples.snapshot))
       Samples.snapshot Samples.indexTs [] eq_refl eq_refl) as [H1 [_ H3]].
  split; [exact (H1 [Samples.mainPy])|exact H3].
Defined.

(** C4 at a listing that holds a file without extension: the entry of
    kind dir is left out and the entry whose fetch fails is dropped, but
    the file named go is tagged with the language go. *)
Theorem file_without_extension_is_tagged_by_its_name :
  detectLanguageFromFile asciiToLowerCase (str "go") = str "go"
  /\ option_map
       (fun snapshot =>
          List.map (fun f => (GitHubFile.name f, GitHubFile.language f))
            (GitHubRepo.files snapshot))
       (fetchGitHubRepo asciiToLowerCase Samples.oneRepo
          (str "https://github.com/octo/docs.git"))
     = Some [ (str "a.py", Some (str "python")); (str "go", Some (str "go")) ].
Proof. split; vm_compute; reflexivity. Qed.

(** C5 at a listing whose second file is answered with the status 404:
    the file is not dropped, it stays in the snapshot with the error page
    as its content (the status of a file answer is not looked at, while
    the two other requests of the resolution give up on an answer that is
    not ok). *)
Theorem file_answered_404_is_kept :
  option_map
    (fun snapshot =>
       List.map (fun f => (GitHubFile.name f, GitHubFile.content f))
         (GitHubRepo.files snapshot))
    (fetchGitHubRepo asciiToLowerCase Samples.answers404
       (str "https://github.com/octo/docs"))
  = Some [ (str "a.py", str "x"); (str "b.js", str "404: Not Found");
           (str "go", str "x") ]
  /\ fetchGitHubRepo asciiToLowerCase
       (mkNetwork (fun _ => Response false (Some
                     (RepoJson.mk (str "docs") (str "octo/docs") None 7 None)))
          (getContents Samples.answers404) (getText Samples.answers404))
       (str "https://github.com/octo/docs")
     = None.
Proof. split; vm_compute; reflexivity. Qed.

Lemma file_fetch_failures_are_swallowed_witness :
  exists snapshot,
    fetchGitHubRepo asciiToLowerCase Samples.oneRepo
      (str "https://github.com/octo/docs.git") = Some snapshot
    /\ List.map GitHubFile.name (GitHubRepo.files snapshot)
       = [str "a.py"; str "go"].
Proof.
  destruct
    (file_fetch_failures_are_swallowed asciiToLowerCase Samples.oneRepo
       (str "https://github.com/octo/docs.git") (str "octo") (str "docs.git")
       (RepoJson.mk (str "docs") (str "octo/docs") None 7 None)
       Samples.listing eq_refl eq_refl eq_refl) as [snapshot [E _]].
  exists snapshot. split; [exact E|].
  vm_compute in E. injection E as <-. reflexivity.
Defined.

(** C6, as stated, fails: a reference that cannot be resolved, typed
    while a snapshot of an earlier reference is attached, does not bring
    the component to a state without repository; the earlier snapshot
    stays and the next submit takes its code and its language. *)
Lemma failing_reference_keeps_earlier_snapshot :
  fetchGitHubRepo asciiToLowerCase Samples.offline
    (str "https://github.com/octo/gone")
  = None
  /\ githubRepoData
       (handleGithubModalSubmit asciiToLowerCase Samples.offline
          (mkState (str "") [Samples.mainPy]
             (str "https://github.com/octo/gone") (Some Samples.snapshot)))
     = Some Samples.snapshot
  /\ resolveContent asciiToLowerCase
       (handleGithubModalSubmit asciiToLowerCase Samples.offline
          (mkState (str "") [Samples.mainPy]
             (str "https://github.com/octo/gone") (Some Samples.snapshot)))
     = (str "export {}", str "typescript")
  /\ resolveContent asciiToLowerCase
       (mkState (str "") [Samples.mainPy] (str "") None)
     = (str "print(1)", str "python").
Proof. repeat split; vm_compute; reflexivity. Qed.

Lemma unresolved_reference_changes_nothing_witness :
  handleGithubModalSubmit asciiToLowerCase Samples.offline
    (mkState (str "hello") [] (str "https://github.com/octo/docs") None)
  = mkState (str "hello") [] (str "https://github.com/octo/docs") None.
Proof.
  apply (unresolved_reference_changes_nothing asciiToLowerCase
           asciiToUpperCase Samples.offline
           (mkState (str "hello") [] (str "https://github.com/octo/docs")
              None)).
  right. exists (str "octo"), (str "docs"). split; reflexivity.
Defined.

Lemma final_code_composition_witness :
  fst (resolveContent asciiToLowerCase
         (mkState (str "hello") [Samples.mainPy] (str "") None))
  = str "// User Input: hello" ++ [LF] ++ [LF]
    ++ str "// File: main.py" ++ [LF] ++ str "print(1)".
Proof.
  pose proof
    (final_code_composition asciiToLowerCase
       (mkState (str "hello") [Samples.mainPy] (str "") None))
    as [_ [H _]].
  exact (H Samples.mainPy [] (str "print(1)") eq_refl eq_refl eq_refl).
Defined.

Lemma unreadable_file_falls_back_witness :
  resolveContent asciiToLowerCase
    (mkState (str "hello") [Samples.broken] (str "") None)
  = (str "hello", str "javascript").
Proof.
  apply (unreadable_file_falls_back asciiToLowerCase
           (mkState (str "hello") [Samples.broken] (str "") None)
           Samples.broken []); reflexivity.
Defined.

Lemma nothing_to_submit_is_noop_witness :
  handleSubmit asciiToLowerCase asciiToUpperCase
    (mkState (str "   ") [] (str "") None) Samples.emptyDb
  = (mkState (str "   ") [] (str "") None, Samples.emptyDb, None).
Proof.
  apply (nothing_to_submit_is_noop asciiToLowerCase asciiToUpperCase
           (mkState (str "   ") [] (str "") None) Samples.emptyDb);
    reflexivity.
Defined.

(** C10, as stated, fails: the reference is resolved into a snapshot
    without files, the user typed a text, and the seed message is that
    text; the repository is not named in it. *)
Lemma seed_message_is_the_user_text :
  handleGithubModalSubmit asciiToLowerCase Samples.dirsOnly
    (mkState (str "hi") [] (str "https://github.com/octo/docs") None)
  = mkState (str "hi") [] (str "https://github.com/octo/docs")
      (Some Samples.emptySnapshot)
  /\ SessionRequest.initialMessage
       (requestBody asciiToLowerCase
          (mkState (str "hi") [] (str "https://github.com/octo/docs")
             (Some Samples.emptySnapshot)))
     = str "hi"
  /\ occursIn (str "hi") (GitHubRepo.fullName Samples.emptySnapshot) = false
  /\ occursIn (str "hi") (GitHubRepo.name Samples.emptySnapshot) = false.
Proof. repeat split; vm_compute; reflexivity. Qed.

Lemma empty_snapshot_is_ignored_for_content_witness :
  SessionRequest.initialMessage
    (requestBody asciiToLowerCase
       (mkState (str "") [Samples.mainPy] (str "")
          (Some Samples.emptySnapshot)))
  = str "Opened GitHub repository: octo/docs"
  /\ resolveContent asciiToLowerCase
       (mkState (str "") [Samples.mainPy] (str "")
          (Some Samples.emptySnapshot))
     = resolveContent asciiToLowerCase
         (mkState (str "") [Samples.mainPy] (str "") None).
Proof.
  pose proof
    (empty_snapshot_is_ignored_for_content asciiToLowerCase asciiToUpperCase
       (mkState (str "") [Samples.mainPy] (str "")
          (Some Samples.emptySnapshot))
       Samples.emptySnapshot eq_refl eq_refl) as [H1 [_ [H3 _]]].
  split; [exact H3|exact H1].
Defined.

(** * Further properties of the code *)

(** ** More on strings *)

Lemma trimStart_app (a b : jsstring) :
  trimStart (a ++ b)
  = if forallb isWhiteSpace a then trimStart b else trimStart a ++ b.
Proof.
  induction a as [|c a IH]; simpl; [reflexivity|].
  destruct (isWhiteSpace c); simpl; [exact IH|reflexivity].
Qed.

Lemma trimEnd_cons (c : N) (s : jsstring) :
  isWhiteSpace c = false -> trimEnd (c :: s) = c :: trimEnd s.
Proof.
  intros Hc. unfold trimEnd. simpl rev. rewrite trimStart_app.
  destruct (forallb isWhiteSpace (rev s)) eqn:W.
  - apply trimStart_nil_iff in W. rewrite W. simpl. rewrite Hc. reflexivity.
  - rewrite rev_app_distr. reflexivity.
Qed.

Lemma trim_cons2 (c1 c2 : N) (s : jsstring) :
  isWhiteSpace c1 = false -> isWhiteSpace c2 = false ->
  trim (c1 :: c2 :: s) = c1 :: c2 :: trimEnd s.
Proof.
  intros H1 H2. unfold trim. simpl. rewrite H1.
  rewrite (trimEnd_cons c1) by exact H1.
  rewrite (trimEnd_cons c2) by exact H2. reflexivity.
Qed.

Lemma split_nonempty (sep : N) (s : jsstring) : split sep s <> [].
Proof.
  destruct s as [|c s]; simpl; [discriminate|].
  destruct (N.eqb c sep); [discriminate|].
  destruct (split sep s); discriminate.
Qed.

Lemma consHead_app (c : N) (l1 l2 : list jsstring) :
  l1 <> [] -> consHead c (l1 ++ l2) = consHead c l1 ++ l2.
Proof. destruct l1; [congruence|reflexivity]. Qed.

(** Splitting distributes over a separator. *)
Lemma split_app (sep : N) (a b : jsstring) :
  split sep (a ++ sep :: b) = split sep a ++ split sep b.
Proof.
  induction a as [|c a IH]; simpl.
  - rewrite N.eqb_refl. reflexivity.
  - rewrite IH. destruct (N.eqb c sep); [reflexivity|].
    apply consHead_app, split_nonempty.
Qed.

Lemma split_singleLine (s : jsstring) :
  singleLine s = true -> split LF s = [s].
Proof.
  unfold singleLine. induction s as [|c s IH]; simpl; [reflexivity|].
  intros H. apply andb_true_iff in H. destruct H as [Hc Hs].
  apply negb_true_iff in Hc. rewrite Hc, (IH Hs). reflexivity.
Qed.

(** ** More on the title generator *)

Section TitleFurther.

Variable toLowerCase : jsstring -> jsstring.
Variable toUpperCase : jsstring -> jsstring.

Lemma replaceSymbols_no_symbol (s : jsstring) :
  forallb (fun c => negb (isCodeSymbol c)) (replaceSymbols s) = true.
Proof.
  unfold replaceSymbols. induction s as [|c s IH]; simpl; [reflexivity|].
  rewrite IH, andb_true_r.
  destruct (isCodeSymbol c) eqn:E; [reflexivity|]. rewrite E. reflexivity.
Qed.

Lemma splitWsFrom_pieces (inws : bool) (s : jsstring) :
  forallb (fun c => negb (isCodeSymbol c)) s = true ->
  Forall
    (fun w =>
       forallb (fun c => negb (isWhiteSpace c) && negb (isCodeSymbol c)) w
       = true)
    (splitWsFrom inws s).
Proof.
  revert inws. induction s as [|c s IH]; intros inws H; simpl.
  - repeat constructor.
  - simpl in H. apply andb_true_iff in H. destruct H as [Hc Hs].
    destruct (isWhiteSpace c) eqn:W.
    + destruct inws; [apply IH, Hs|].
      constructor; [reflexivity|apply IH, Hs].
    + specialize (IH false Hs).
      destruct (splitWsFrom false s) as [|h t]; simpl.
      * repeat constructor. simpl. rewrite W, Hc. reflexivity.
      * inversion IH; subst. constructor; [|assumption].
        simpl. rewrite W, Hc. simpl. assumption.
Qed.

Lemma Forall_firstn {A : Type} (P : A -> Prop) (n : nat) (l : list A) :
  Forall P l -> Forall P (firstn n l).
Proof.
  intros H. apply Forall_forall. intros x Hx.
  apply In_firstn in Hx. revert x Hx. apply Forall_forall, H.
Qed.

(** X1.  The words of a title: at most four, each longer than two code
    units, free of white space and of the stripped symbols, and none a
    stop word once put in lower case. *)
Theorem title_words_are_clean (code : jsstring) :
  length (titleWords toLowerCase code) <= 4
  /\ Forall
       (fun w =>
          2 < length w
          /\ forallb
               (fun c => negb (isWhiteSpace c) && negb (isCodeSymbol c)) w
             = true
          /\ includes commonKeywords (toLowerCase w) = false)
       (titleWords toLowerCase code).
Proof.
  unfold titleWords. split; [apply firstn_le_length|].
  apply Forall_firstn, Forall_forall. intros w Hw.
  apply filter_In in Hw. destruct Hw as [Hin Hk].
  split; [apply (keepWord_long toLowerCase), Hk|]. split.
  - pose proof (splitWsFrom_pieces false _
                  (replaceSymbols_no_symbol (cleanCode code))) as F.
    rewrite Forall_forall in F. apply F, Hin.
  - unfold keepWord in Hk. apply andb_true_iff in Hk.
    destruct Hk as [_ Hk]. apply negb_true_iff, Hk.
Qed.

(** The clean code only depends on the lines that are kept. *)
Lemma cleanCode_lines (code : jsstring) :
  cleanCode code
  = join (str " ") (filter keepLine (List.map trim (split LF code))).
Proof. reflexivity. Qed.

Lemma cleanCode_drop_middle (a line b : jsstring) :
  singleLine line = true -> keepLine (trim line) = false ->
  cleanCode (a ++ LF :: line ++ LF :: b) = cleanCode (a ++ LF :: b).
Proof.
  intros Hs Hk. rewrite !cleanCode_lines.
  rewrite (split_app LF a), (split_app LF line), (split_app LF a).
  rewrite (split_singleLine line Hs).
  rewrite !map_app, !filter_app. simpl. rewrite Hk. reflexivity.
Qed.

Lemma cleanCode_drop_first (line b : jsstring) :
  singleLine line = true -> keepLine (trim line) = false ->
  cleanCode (line ++ LF :: b) = cleanCode b.
Proof.
  intros Hs Hk. rewrite !cleanCode_lines.
  rewrite (split_app LF line), (split_singleLine line Hs).
  simpl. rewrite Hk. reflexivity.
Qed.

Lemma cleanCode_drop_last (a line : jsstring) :
  singleLine line = true -> keepLine (trim line) = false ->
  cleanCode (a ++ LF :: line) = cleanCode a.
Proof.
  intros Hs Hk. rewrite !cleanCode_lines.
  rewrite (split_app LF a), (split_singleLine line Hs).
  rewrite map_app, filter_app. simpl. rewrite Hk. rewrite app_nil_r.
  reflexivity.
Qed.

Lemma isBlank_app (a b : jsstring) :
  TitleSpec.isBlank (a ++ b) = TitleSpec.isBlank a && TitleSpec.isBlank b.
Proof. apply forallb_app. Qed.

Lemma title_of_cleanCode (code code' language : jsstring) :
  cleanCode code = cleanCode code' ->
  TitleSpec.isBlank code = false -> TitleSpec.isBlank code' = false ->
  generateSessionTitle toLowerCase toUpperCase code language
  = generateSessionTitle toLowerCase toUpperCase code' language.
Proof.
  intros Hc Hb Hb'. rewrite !generateSessionTitle_cases, Hb, Hb'.
  unfold titleWords. rewrite Hc. reflexivity.
Qed.

(** X2.  A line that the generator drops (an empty line, a line of white
    space, a comment line) can be added before, inside or after a code
    that is not blank without changing the title. *)
Theorem dropped_line_does_not_change_title (line : jsstring)
    (language : jsstring) :
  singleLine line = true ->
  keepLine (trim line) = false ->
  (forall code,
      TitleSpec.isBlank code = false ->
      generateSessionTitle toLowerCase toUpperCase (line ++ LF :: code)
        language
      = generateSessionTitle toLowerCase toUpperCase code language)
  /\ (forall code,
         TitleSpec.isBlank code = false ->
         generateSessionTitle toLowerCase toUpperCase (code ++ LF :: line)
           language
         = generateSessionTitle toLowerCase toUpperCase code language)
  /\ (forall a b,
         TitleSpec.isBlank (a ++ LF :: b) = false ->
         generateSessionTitle toLowerCase toUpperCase
           (a ++ LF :: line ++ LF :: b) language
         = generateSessionTitle toLowerCase toUpperCase (a ++ LF :: b)
             language).
Proof.
  intros Hs Hk. split; [|split].
  - intros code Hb. apply title_of_cleanCode.
    + apply cleanCode_drop_first; assumption.
    + rewrite isBlank_app. change (LF :: code) with ([LF] ++ code).
      rewrite isBlank_app, Hb, !andb_false_r. reflexivity.
    + exact Hb.
  - intros code Hb. apply title_of_cleanCode.
    + apply cleanCode_drop_last; assumption.
    + rewrite isBlank_app, Hb. reflexivity.
    + exact Hb.
  - intros a b Hb. apply title_of_cleanCode.
    + apply cleanCode_drop_middle; assumption.
    + rewrite isBlank_app in Hb |- *.
      change (LF :: line ++ LF :: b) with ([LF] ++ line ++ LF :: b).
      change (LF :: b) with ([LF] ++ b) in Hb.
      rewrite !isBlank_app in *.
      destruct (TitleSpec.isBlank a); [|reflexivity]. simpl in *.
      rewrite Hb, andb_false_r. reflexivity.
    + exact Hb.
Qed.

End TitleFurther.

(** ** The header written by the submit handler and the title *)

Section HeaderAndTitle.

Variable toLowerCase : jsstring -> jsstring.
Variable toUpperCase : jsstring -> jsstring.

Lemma singleLine_app (a b : jsstring) :
  singleLine (a ++ b) = singleLine a && singleLine b.
Proof. apply forallb_app. Qed.

(** A line that opens with two slashes is dropped. *)
Lemma slash_line_dropped (s : jsstring) :
  keepLine (trim (str "// " ++ s)) = false.
Proof.
  change (str "// " ++ s) with (47%N :: 47%N :: (32%N :: s)).
  rewrite trim_cons2 by reflexivity.
  destruct (trimEnd (32%N :: s)); reflexivity.
Qed.

Lemma cleanCode_comment_first (s rest : jsstring) :
  singleLine s = true ->
  cleanCode ((str "// " ++ s) ++ LF :: rest) = cleanCode rest.
Proof.
  intros H. apply cleanCode_drop_first; [|apply slash_line_dropped].
  rewrite singleLine_app, H. reflexivity.
Qed.

Lemma cleanCode_empty_first (rest : jsstring) :
  cleanCode (LF :: rest) = cleanCode rest.
Proof. apply (cleanCode_drop_first [] rest); reflexivity. Qed.

(** The title of a code that is a block of comment lines followed by
    [content]. *)
Lemma title_after_header (code content language : jsstring) :
  cleanCode code = cleanCode content ->
  TitleSpec.isBlank code = false ->
  generateSessionTitle toLowerCase toUpperCase code language
  = if TitleSpec.isBlank content
    then (toUpperCase (charAt0 language) ++ slice1 language) ++ str " Code"
    else generateSessionTitle toLowerCase toUpperCase content language.
Proof.
  intros Hc Hb.
  destruct (TitleSpec.isBlank content) eqn:B.
  - rewrite generateSessionTitle_cases, Hb. unfold titleWords. rewrite Hc.
    fold (titleWords toLowerCase content).
    rewrite (blank_titleWords toLowerCase content B). reflexivity.
  - apply title_of_cleanCode; assumption.
Qed.

(** X3.  When the user text and the names are written on one line, the
    header that the submit handler puts before the content of the primary
    file never reaches the title: the title of the composed code is the
    title of the file content alone (the capitalised language followed by
    Code when that content is blank). *)
Theorem header_does_not_reach_title (st : State) (language : jsstring) :
  truthy (trim (currentValue st)) = true ->
  singleLine (currentValue st) = true ->
  (forall firstFile rest fileContent,
      githubRepoData st = None ->
      attachedFiles st = firstFile :: rest ->
      readFileContent firstFile = Some fileContent ->
      singleLine (File.name firstFile) = true ->
      generateSessionTitle toLowerCase toUpperCase
        (fst (resolveContent toLowerCase st)) language
      = if TitleSpec.isBlank fileContent
        then (toUpperCase (charAt0 language) ++ slice1 language)
             ++ str " Code"
        else generateSessionTitle toLowerCase toUpperCase fileContent
               language)
  /\ (forall repo firstFile rest,
         githubRepoData st = Some repo ->
         GitHubRepo.files repo = firstFile :: rest ->
         singleLine (GitHubRepo.fullName repo) = true ->
         singleLine (GitHubFile.name firstFile) = true ->
         generateSessionTitle toLowerCase toUpperCase
           (fst (resolveContent toLowerCase st)) language
         = if TitleSpec.isBlank (GitHubFile.content firstFile)
           then (toUpperCase (charAt0 language) ++ slice1 language)
                ++ str " Code"
           else generateSessionTitle toLowerCase toUpperCase
                  (GitHubFile.content firstFile) language).
Proof.
  intros Ht Hs. split.
  - intros firstFile rest fileContent Hd Hf Hr Hn.
    rewrite resolveContent_local by (rewrite Hd; exact I).
    rewrite Hf, Hr, Ht. cbn [fst].
    apply title_after_header; [|reflexivity].
    change (str "// User Input: " ++ currentValue st ++ [LF; LF]
            ++ str "// File: " ++ File.name firstFile ++ [LF] ++ fileContent)
      with ((str "// " ++ str "User Input: " ++ currentValue st)
            ++ LF :: LF
               :: str "// " ++ str "File: " ++ File.name firstFile
                  ++ [LF] ++ fileContent).
    rewrite cleanCode_comment_first
      by (rewrite singleLine_app, Hs; reflexivity).
    rewrite cleanCode_empty_first.
    replace (str "// " ++ str "File: " ++ File.name firstFile
             ++ [LF] ++ fileContent)
      with ((str "// " ++ str "File: " ++ File.name firstFile)
            ++ LF :: fileContent)
      by (rewrite <- !app_assoc; reflexivity).
    apply cleanCode_comment_first. rewrite singleLine_app, Hn. reflexivity.
  - intros repo firstFile rest Hd Hf Hfull Hn.
    rewrite (resolveContent_snapshot toLowerCase st repo firstFile rest Hd Hf).
    rewrite Ht. cbn [fst].
    apply title_after_header; [|reflexivity].
    change (str "// User Input: " ++ currentValue st ++ [LF; LF]
            ++ str "// GitHub Repository: " ++ GitHubRepo.fullName repo
            ++ [LF] ++ str "// File: " ++ GitHubFile.name firstFile
            ++ [LF] ++ GitHubFile.content firstFile)
      with ((str "// " ++ str "User Input: " ++ currentValue st)
            ++ LF :: LF
               :: str "// " ++ str "GitHub Repository: "
                  ++ GitHubRepo.fullName repo
                  ++ [LF] ++ str "// File: " ++ GitHubFile.name firstFile
                  ++ [LF] ++ GitHubFile.content firstFile).
    rewrite cleanCode_comment_first
      by (rewrite singleLine_app, Hs; reflexivity).
    rewrite cleanCode_empty_first.
    replace (str "// " ++ str "GitHub Repository: "
             ++ GitHubRepo.fullName repo
             ++ [LF] ++ str "// File: " ++ GitHubFile.name firstFile
             ++ [LF] ++ GitHubFile.content firstFile)
      with ((str "// " ++ str "GitHub Repository: "
             ++ GitHubRepo.fullName repo)
            ++ LF :: ((str "// " ++ str "File: "
                       ++ GitHubFile.name firstFile)
                      ++ LF :: GitHubFile.content firstFile))
      by (rewrite <- !app_assoc; reflexivity).
    rewrite cleanCode_comment_first
      by (rewrite singleLine_app, Hfull; reflexivity).
    apply cleanCode_comment_first. rewrite singleLine_app, Hn. reflexivity.
Qed.

End HeaderAndTitle.

(** ** Languages and titles produced by the application itself *)

Section ApplicationTitles.

Variable toLowerCase : jsstring -> jsstring.
Variable toUpperCase : jsstring -> jsstring.

Lemma includes_In (l : list jsstring) (x : jsstring) :
  includes l x = true -> In x l.
Proof.
  unfold includes. intros H. apply existsb_exists in H.
  destruct H as [y [Hy E]]. unfold jsstring_eqb in E.
  destruct (list_eq_dec N.eq_dec x y); [subst; exact Hy|discriminate].
Qed.

Lemma languageMap_in_table :
  Forall (fun entry => In (snd entry) tableLanguages) languageMap.
Proof.
  apply Forall_forall. intros entry H. apply includes_In.
  assert (F : forallb (fun e => includes tableLanguages (snd e)) languageMap
              = true) by (vm_compute; reflexivity).
  rewrite forallb_forall in F. apply F, H.
Qed.

Lemma tableLanguages_short (l : jsstring) :
  In l tableLanguages -> 0 < length l <= 10.
Proof.
  intros H.
  assert (F : forallb (fun l => (0 <? length l) && (length l <=? 10))
                tableLanguages = true) by (vm_compute; reflexivity).
  rewrite forallb_forall in F. specialize (F l H).
  apply andb_true_iff in F. destruct F as [F1 F2].
  apply Nat.ltb_lt in F1. apply Nat.leb_le in F2. lia.
Qed.

(** X4.  Whatever the file is called, the language inferred from its name
    is one of the twenty tags of the table, hence a non-empty string of
    at most ten code units (names whose last segment is an inherited
    property name apart). *)
Theorem detectLanguageFromFile_in_table (fileName : jsstring) :
  plainName toLowerCase fileName = true ->
  In (detectLanguageFromFile toLowerCase fileName) tableLanguages
  /\ 0 < length (detectLanguageFromFile toLowerCase fileName) <= 10.
Proof.
  intros _.
  assert (H : In (detectLanguageFromFile toLowerCase fileName)
                tableLanguages).
  { destruct (lookup (toLowerCase (last (split 46 fileName) [])) languageMap)
      as [language|] eqn:E.
    - rewrite (detectLanguageFromFile_known toLowerCase fileName language E).
      exact (lookup_value (fun v => In v tableLanguages) _ _ _
               languageMap_in_table E).
    - rewrite (detectLanguageFromFile_unknown toLowerCase fileName E).
      left. reflexivity. }
  split; [exact H|apply tableLanguages_short, H].
Qed.

Lemma detected_language (fileName : jsstring) :
  In (detectLanguageFromFile toLowerCase fileName) tableLanguages.
Proof.
  destruct (lookup (toLowerCase (last (split 46 fileName) [])) languageMap)
    as [language|] eqn:E.
  - rewrite (detectLanguageFromFile_known toLowerCase fileName language E).
    exact (lookup_value (fun v => In v tableLanguages) _ _ _
             languageMap_in_table E).
  - rewrite (detectLanguageFromFile_unknown toLowerCase fileName E).
    left. reflexivity.
Qed.

Lemma filterBoolean_In {A : Type} (l : list (option A)) (a : A) :
  In a (filterBoolean l) -> In (Some a) l.
Proof.
  induction l as [|[b|] l IH]; simpl; [tauto| |].
  - intros [H|H]; [left; congruence|right; apply IH, H].
  - intros H. right. apply IH, H.
Qed.

Lemma snapshot_files_tagged (net : Network) (repoUrl : jsstring)
    (snapshot : GitHubRepo.t) :
  fetchGitHubRepo toLowerCase net repoUrl = Some snapshot ->
  Forall
    (fun f =>
       GitHubFile.language f
       = Some (detectLanguageFromFile toLowerCase (GitHubFile.name f)))
    (GitHubRepo.files snapshot)
  /\ GitHubRepo.description snapshot <> []
  /\ GitHubRepo.language snapshot <> [].
Proof.
  intros H. unfold fetchGitHubRepo in H.
  destruct (matchRepo repoUrl) as [[owner repo]|]; [|discriminate].
  destruct (okBody (getRepo net (repoApiUrl owner repo))) as [repoData|];
    [|discriminate].
  destruct (okBody (getContents net _)) as [contents|]; [|discriminate].
  injection H as <-. simpl. split; [|split].
  - apply Forall_forall. intros f Hf. apply filterBoolean_In in Hf.
    apply in_map_iff in Hf. destruct Hf as [item [Hi _]].
    unfold fetchFile in Hi.
    destruct (getText net (ContentItem.download_url item))
      as [|ok [content|]]; try discriminate.
    injection Hi as <-. reflexivity.
  - unfold orElse. destruct (RepoJson.description repoData) as [[|c d]|];
      discriminate.
  - unfold orElse. destruct (RepoJson.language repoData) as [[|c d]|];
      discriminate.
Qed.

(** X5.  A snapshot returned by the resolution holds at most ten files,
    each tagged with the language inferred from its own name; its
    description and its language are never empty. *)
Theorem snapshot_is_well_formed (net : Network) (repoUrl : jsstring)
    (snapshot : GitHubRepo.t) :
  fetchGitHubRepo toLowerCase net repoUrl = Some snapshot ->
  length (GitHubRepo.files snapshot) <= 10
  /\ Forall
       (fun f =>
          GitHubFile.language f
          = Some (detectLanguageFromFile toLowerCase (GitHubFile.name f)))
       (GitHubRepo.files snapshot)
  /\ GitHubRepo.description snapshot <> []
  /\ GitHubRepo.language snapshot <> [].
Proof.
  intros H. split; [exact (snapshot_files_length toLowerCase net _ _ H)|].
  exact (snapshot_files_tagged net repoUrl snapshot H).
Qed.

Lemma title_fits (code language : jsstring) :
  length language <= 18 ->
  length (toUpperCase (charAt0 language) ++ slice1 language) <= 25 ->
  0 < length (generateSessionTitle toLowerCase toUpperCase code language)
  <= 30.
Proof.
  intros Hl Hc. rewrite generateSessionTitle_cases.
  destruct (TitleSpec.isBlank code).
  - rewrite !length_app. simpl. lia.
  - pose proof (titleWords_long toLowerCase code) as Long.
    destruct (titleWords toLowerCase code) as [|w ws].
    + rewrite length_app. simpl. lia.
    + cbv zeta. pose proof (join_length_head (str " ") w ws) as Hj.
      inversion Long as [|? ? Hw _]; subst.
      destruct (30 <? length (join (str " ") (w :: ws))) eqn:L.
      * apply Nat.ltb_lt in L. pose proof (truncated_length _ L) as T.
        unfold substring0 in T. rewrite T. lia.
      * apply Nat.ltb_ge in L. lia.
Qed.

(** The language of a request is a tag of the table as soon as the
    snapshot, if any, comes from the resolution. *)
Lemma request_language_in_table (st : State) :
  (githubRepoData st = None
   \/ exists net repoUrl,
        fetchGitHubRepo toLowerCase net repoUrl = githubRepoData st) ->
  In (snd (resolveContent toLowerCase st)) tableLanguages.
Proof.
  intros H.
  assert (Local : forall st',
             In (snd (match attachedFiles st' with
                      | firstFile :: _ =>
                          match readFileContent firstFile with
                          | Some fileContent =>
                              (if truthy (trim (currentValue st')) then
                                 str "// User Input: " ++ currentValue st'
                                 ++ [LF; LF] ++ str "// File: "
                                 ++ File.name firstFile ++ [LF] ++ fileContent
                               else fileContent,
                               detectLanguageFromFile toLowerCase
                                 (File.name firstFile))
                          | None => (currentValue st', str "javascript")
                          end
                      | [] => (currentValue st', str "javascript")
                      end)) tableLanguages).
  { intros st'. destruct (attachedFiles st') as [|f fs]; [left; reflexivity|].
    destruct (readFileContent f); [|left; reflexivity].
    apply detected_language. }
  destruct (githubRepoData st) as [repo|] eqn:Hd.
  - destruct H as [H|[net [repoUrl H]]]; [discriminate|].
    destruct (snapshot_files_tagged net repoUrl repo H) as [F _].
    destruct (GitHubRepo.files repo) as [|firstFile rest] eqn:Hf.
    + rewrite resolveContent_local by (rewrite Hd; exact Hf). apply Local.
    + rewrite (resolveContent_snapshot toLowerCase st repo firstFile rest Hd Hf).
      inversion F as [|? ? E _]; subst.
      simpl. rewrite E. unfold orElse.
      pose proof (detected_language (GitHubFile.name firstFile)) as Hin.
      destruct (tableLanguages_short _ Hin) as [Hpos _].
      destruct (detectLanguageFromFile toLowerCase (GitHubFile.name firstFile));
        [inversion Hpos|exact Hin].
  - rewrite resolveContent_local by (rewrite Hd; exact I). apply Local.
Qed.

(** X6.  Provided that upper-casing one code unit yields at most three,
    every session that the component creates, with a snapshot that comes
    from the resolution or with none, is stored with a title of at least
    one and at most thirty code units (primary files whose name ends in
    an inherited property name apart). *)
Theorem stored_title_fits (st : State) (db db' : Db)
    (session : CodeSession.t) :
  (forall c, length (toUpperCase [c]) <= 3) ->
  (githubRepoData st = None
   \/ exists net repoUrl,
        fetchGitHubRepo toLowerCase net repoUrl = githubRepoData st) ->
  match primaryName st with
  | Some fileName => plainName toLowerCase fileName = true
  | None => True
  end ->
  POST toLowerCase toUpperCase db (requestBody toLowerCase st)
  = (db', Some session) ->
  exists title,
    CodeSession.title session = Some title /\ 0 < length title <= 30.
Proof.
  intros Hup Horigin _ H.
  pose proof (request_language_in_table st Horigin) as Hin.
  unfold POST, prismaCreate, requestBody in H.
  destruct (resolveContent toLowerCase st) as [codeContent language].
  simpl in H, Hin.
  destruct (online db); [|discriminate].
  injection H as _ <-. simpl. eexists. split; [reflexivity|].
  destruct (tableLanguages_short language Hin) as [Hpos Hlen].
  destruct language as [|c rest]; [inversion Hpos|].
  change (orElse (c :: rest) (str "javascript")) with (c :: rest).
  apply title_fits; [lia|].
  change (charAt0 (c :: rest)) with [c].
  change (slice1 (c :: rest)) with rest.
  rewrite length_app. specialize (Hup c). simpl in Hlen. lia.
Qed.

End ApplicationTitles.

(** ** Attaching and detaching *)

Lemma filterIndexFrom_spec {A : Type} (l : list A) (i index : nat) :
  filterIndexFrom i index l
  = if index <? i then l
    else firstn (index - i) l ++ skipn (S (index - i)) l.
Proof.
  revert i. induction l as [|x l IH]; intros i; simpl.
  - destruct (index <? i); [reflexivity|].
    rewrite firstn_nil. reflexivity.
  - rewrite IH.
    destruct (Nat.eqb_spec i index) as [E|E];
      destruct (Nat.ltb_spec index i) as [L|L];
      destruct (Nat.ltb_spec index (S i)) as [L'|L']; try lia; simpl.
    + subst i. rewrite Nat.sub_diag. reflexivity.
    + reflexivity.
    + replace (index - i) with (S (index - S i)) by lia. reflexivity.
Qed.

(** X7.  Removing the file at an index keeps the other files in their
    order: one file less when the index is in range, the same list when
    it is not. *)
Theorem removeFile_removes_one (index : nat) (st : State) :
  attachedFiles (removeFile index st)
  = firstn index (attachedFiles st) ++ skipn (S index) (attachedFiles st)
  /\ (index < length (attachedFiles st) ->
      S (length (attachedFiles (removeFile index st)))
      = length (attachedFiles st))
  /\ (length (attachedFiles st) <= index ->
      removeFile index st
      = mkState (currentValue st) (attachedFiles st) (githubRepo st)
          (githubRepoData st)).
Proof.
  assert (E : attachedFiles (removeFile index st)
              = firstn index (attachedFiles st)
                ++ skipn (S index) (attachedFiles st)).
  { unfold removeFile. cbn [attachedFiles]. rewrite filterIndexFrom_spec.
    change (index <? 0) with false. cbv iota.
    rewrite Nat.sub_0_r. reflexivity. }
  split; [exact E|]. split.
  - intros H. rewrite E, length_app, length_firstn, length_skipn. lia.
  - intros H. unfold removeFile. f_equal.
    rewrite filterIndexFrom_spec.
    change (index <? 0) with false. cbv iota. rewrite Nat.sub_0_r.
    rewrite (firstn_all2 (attachedFiles st) H).
    rewrite (skipn_all2 (attachedFiles st)) by lia. apply app_nil_r.
Qed.

Section Attachments.

Variable toLowerCase : jsstring -> jsstring.
Variable toUpperCase : jsstring -> jsstring.

(** The request only reads the first of the attached files. *)
Lemma requestBody_first_file (text reference : jsstring)
    (data : option GitHubRepo.t) (f : File.t) (r r' : list File.t) :
  requestBody toLowerCase (mkState text (f :: r) reference data)
  = requestBody toLowerCase (mkState text (f :: r') reference data)
  /\ canSubmit (mkState text (f :: r) reference data)
     = canSubmit (mkState text (f :: r') reference data).
Proof.
  split.
  - unfold requestBody, resolveContent. simpl. reflexivity.
  - unfold canSubmit. simpl. reflexivity.
Qed.

Lemma handleSubmit_by_request (st st' : State) (db : Db) :
  requestBody toLowerCase st = requestBody toLowerCase st' ->
  canSubmit st = canSubmit st' ->
  snd (fst (handleSubmit toLowerCase toUpperCase st db))
  = snd (fst (handleSubmit toLowerCase toUpperCase st' db))
  /\ snd (handleSubmit toLowerCase toUpperCase st db)
     = snd (handleSubmit toLowerCase toUpperCase st' db).
Proof.
  intros Hb Hc.
  pose proof (handleSubmit_effects toLowerCase toUpperCase st db) as E1.
  pose proof (handleSubmit_effects toLowerCase toUpperCase st' db) as E2.
  rewrite Hb, Hc, <- E2 in E1. injection E1 as E3 E4. split; assumption.
Qed.

(** X8.  Once a file is attached, attaching more files or removing any
    file but the first changes nothing of what a submit sends and
    stores: only the first attached file is ever used. *)
Theorem only_first_file_matters (st : State) (db : Db) :
  attachedFiles st <> [] ->
  (forall files,
      requestBody toLowerCase (handleFileUpload files st)
      = requestBody toLowerCase st
      /\ snd (fst (handleSubmit toLowerCase toUpperCase
                     (handleFileUpload files st) db))
         = snd (fst (handleSubmit toLowerCase toUpperCase st db)))
  /\ (forall index,
         0 < index ->
         requestBody toLowerCase (removeFile index st)
         = requestBody toLowerCase st
         /\ snd (fst (handleSubmit toLowerCase toUpperCase
                        (removeFile index st) db))
            = snd (fst (handleSubmit toLowerCase toUpperCase st db))).
Proof.
  destruct st as [text files reference data]. simpl.
  destruct files as [|f r]; [congruence|]. intros _. split.
  - intros [more|]; simpl.
    + destruct (requestBody_first_file text reference data f (r ++ more) r)
        as [Hb Hc].
      split; [exact Hb|]. apply handleSubmit_by_request; assumption.
    + split; reflexivity.
  - intros [|index] H; [inversion H|].
    unfold removeFile. simpl.
    destruct (requestBody_first_file text reference data f
                (filterIndexFrom 1 (S index) r) r) as [Hb Hc].
    split; [exact Hb|]. apply handleSubmit_by_request; assumption.
Qed.

(** X9.  Attaching a repository and detaching it again restores what a
    submit sends, whatever the hosting service answered. *)
Theorem attach_then_detach (net : Network) (st : State) :
  githubRepoData st = None ->
  requestBody toLowerCase
    (removeGithubRepo (handleGithubModalSubmit toLowerCase net st))
  = requestBody toLowerCase st
  /\ canSubmit (removeGithubRepo (handleGithubModalSubmit toLowerCase net st))
     = canSubmit st
  /\ handleGithubModalSubmit toLowerCase net
       (removeGithubRepo (handleGithubModalSubmit toLowerCase net st))
     = removeGithubRepo (handleGithubModalSubmit toLowerCase net st).
Proof.
  destruct st as [text files reference data]. simpl. intros ->.
  unfold handleGithubModalSubmit. simpl.
  destruct (truthy (trim reference));
    [destruct (fetchGitHubRepo toLowerCase net (trim reference))|];
    repeat split.
Qed.

(** X10.  A file that is shown with the code icon has its language in the
    table: the extensions of the icon are keys of the language table. *)
Theorem code_icon_has_language (fileName : jsstring) :
  getFileIcon toLowerCase fileName = codeIcon ->
  exists language,
    lookup (toLowerCase (last (split 46 fileName) [])) languageMap
    = Some language
    /\ detectLanguageFromFile toLowerCase fileName = language.
Proof.
  unfold getFileIcon.
  replace (orElse (toLowerCase (last (split 46 fileName) [])) (str ""))
    with (toLowerCase (last (split 46 fileName) []))
    by (destruct (toLowerCase (last (split 46 fileName) [])); reflexivity).
  destruct (includes codeExtensions
              (toLowerCase (last (split 46 fileName) []))) eqn:E;
    [|discriminate].
  intros _. apply includes_In in E.
  assert (K : forall e, In e codeExtensions ->
                        exists l, lookup e languageMap = Some l).
  { intros e He.
    assert (F : forallb
                  (fun e => match lookup e languageMap with
                            | Some _ => true | None => false end)
                  codeExtensions = true) by (vm_compute; reflexivity).
    rewrite forallb_forall in F. specialize (F e He).
    destruct (lookup e languageMap) as [l|]; [exists l; reflexivity|
                                              discriminate]. }
  destruct (K _ E) as [language Hl]. exists language.
  split; [exact Hl|].
  apply (detectLanguageFromFile_known toLowerCase fileName language Hl).
Qed.

End Attachments.

(** ** The store and its routes *)

Lemma updateRow_some (id : N) (f : CodeSession.t -> CodeSession.t)
    (rows rows' : list CodeSession.t) (r' : CodeSession.t) :
  (forall r, CodeSession.id (f r) = CodeSession.id r) ->
  updateRow id f rows = Some (rows', r') ->
  (exists r,
      find (fun s => N.eqb (CodeSession.id s) id) rows = Some r
      /\ r' = f r)
  /\ List.map CodeSession.id rows' = List.map CodeSession.id rows
  /\ length rows' = length rows
  /\ find (fun s => N.eqb (CodeSession.id s) id) rows' = Some r'
  /\ (forall id', id' <> id ->
        find (fun s => N.eqb (CodeSession.id s) id') rows'
        = find (fun s => N.eqb (CodeSession.id s) id') rows).
Proof.
  intros Hid. revert rows' r'.
  induction rows as [|r rows IH]; intros rows' r'; simpl; [discriminate|].
  destruct (N.eqb (CodeSession.id r) id) eqn:E.
  - intros H. injection H as <- <-. simpl. rewrite !Hid, E.
    repeat split; try reflexivity.
    + exists r. split; reflexivity.
    + intros id' Hne. apply N.eqb_eq in E. rewrite E.
      destruct (N.eqb_spec id id') as [E'|E']; [congruence|reflexivity].
  - destruct (updateRow id f rows) as [[rows'' r'']|]; [|discriminate].
    intros H. injection H as <- <-.
    destruct (IH rows'' r'' eq_refl) as [Hf [Hm [Hl [Hg Ho]]]].
    simpl. rewrite E, Hm, Hl. repeat split; try assumption; try reflexivity.
    intros id' Hne. rewrite (Ho id' Hne). reflexivity.
Qed.

Lemma updateRow_none (id : N) (f : CodeSession.t -> CodeSession.t)
    (rows : list CodeSession.t) :
  updateRow id f rows = None
  <-> find (fun s => N.eqb (CodeSession.id s) id) rows = None.
Proof.
  induction rows as [|r rows IH]; simpl; [tauto|].
  destruct (N.eqb (CodeSession.id r) id); [split; discriminate|].
  destruct (updateRow id f rows) as [[rows' r']|].
  - split; [discriminate|]. intros H. apply IH in H. discriminate.
  - split; [intros _; apply IH; reflexivity|reflexivity].
Qed.

Section StoreProperties.

Variable toLowerCase : jsstring -> jsstring.
Variable toUpperCase : jsstring -> jsstring.

Lemma applyPut_id (body : SessionRoute.PutBody) (s : CodeSession.t) :
  CodeSession.id (SessionRoute.applyPut body s) = CodeSession.id s.
Proof. reflexivity. Qed.

Lemma addMessage_id (m : ChatMessage.t) (s : CodeSession.t) :
  CodeSession.id (MessagesRoute.addMessage m s) = CodeSession.id s.
Proof. reflexivity. Qed.

Lemma find_snoc {A : Type} (p : A -> bool) (l : list A) (x : A) :
  find p (l ++ [x])
  = match find p l with
    | Some y => Some y
    | None => if p x then Some x else None
    end.
Proof.
  induction l as [|y l IH]; simpl; [reflexivity|].
  destruct (p y); [reflexivity|exact IH].
Qed.

Lemma resolve_language_truthy (st : State) :
  truthy (snd (resolveContent toLowerCase st)) = true.
Proof.
  assert (D : forall name,
             truthy (detectLanguageFromFile toLowerCase name) = true).
  { intros name. unfold detectLanguageFromFile.
    destruct (lookup _ languageMap); [|reflexivity].
    apply (truthy_orElse toLowerCase toUpperCase). reflexivity. }
  unfold resolveContent.
  destruct (githubRepoData st) as [repo|];
    [destruct (GitHubRepo.files repo) as [|f fs]|].
  2: { destruct (truthy (trim (currentValue st))); simpl;
       apply (truthy_orElse toLowerCase toUpperCase); reflexivity. }
  all: destruct (attachedFiles st) as [|f fs]; [reflexivity|];
    destruct (readFileContent f); [|reflexivity];
    destruct (truthy (trim (currentValue st))); simpl; apply D.
Qed.

Lemma seed_truthy (st : State) :
  truthy (SessionRequest.initialMessage (requestBody toLowerCase st)) = true.
Proof.
  unfold requestBody. destruct (resolveContent toLowerCase st). simpl.
  apply (truthy_orElse toLowerCase toUpperCase).
  destruct (githubRepoData st); reflexivity.
Qed.

Lemma orElse_self (a : jsstring) : orElse a (str "") = a.
Proof. destruct a; reflexivity. Qed.

Lemma orElse_truthy (a b : jsstring) : truthy a = true -> orElse a b = a.
Proof. unfold orElse. intros ->. reflexivity. Qed.

(** What a submit that passes the guard does on a reachable store. *)
Lemma handleSubmit_success (st : State) (db : Db) :
  online db = true -> canSubmit st = true ->
  exists session,
    handleSubmit toLowerCase toUpperCase st db
    = (mkState (str "") [] (str "") None,
       mkDb (sessions db ++ [session]) true (N.succ (nextId db)),
       Some (CodeSession.id session))
    /\ CodeSession.code session = fst (resolveContent toLowerCase st)
    /\ CodeSession.language session = snd (resolveContent toLowerCase st)
    /\ CodeSession.title session
       = Some (generateSessionTitle toLowerCase toUpperCase
                 (fst (resolveContent toLowerCase st))
                 (snd (resolveContent toLowerCase st)))
    /\ CodeSession.messages session
       = [ChatMessage.mk
            (SessionRequest.initialMessage (requestBody toLowerCase st)) USER]
    /\ SessionRequest.initialMessage (requestBody toLowerCase st) <> [].
Proof.
  intros Hon Hc.
  pose proof (seed_truthy st) as Hseed.
  pose proof (resolve_language_truthy st) as Hlang.
  unfold handleSubmit. rewrite Hc. unfold POST, prismaCreate. rewrite Hon.
  rewrite Hseed.
  assert (Hreq : SessionRequest.code (requestBody toLowerCase st)
                 = fst (resolveContent toLowerCase st)
                 /\ SessionRequest.language (requestBody toLowerCase st)
                    = snd (resolveContent toLowerCase st)).
  { unfold requestBody. destruct (resolveContent toLowerCase st).
    split; reflexivity. }
  destruct Hreq as [Hcode Hl]. rewrite Hcode, Hl.
  rewrite orElse_self, (orElse_truthy _ _ Hlang).
  eexists. split; [reflexivity|]. cbn [CodeSession.id CodeSession.code
    CodeSession.language CodeSession.title CodeSession.messages].
  repeat split.
  intros E. rewrite E in Hseed. discriminate.
Qed.

(** Looking a session up after one more session has been stored. *)
Lemma findUnique_after_create (db db' : Db) (session : CodeSession.t) :
  sessions db' = sessions db ++ [session] ->
  (forall id old, findUnique db id = Some old -> findUnique db' id = Some old)
  /\ (findUnique db (CodeSession.id session) = None ->
      findUnique db' (CodeSession.id session) = Some session).
Proof.
  intros E. unfold findUnique. rewrite E. split.
  - intros id old H. rewrite find_snoc, H. reflexivity.
  - intros H. rewrite find_snoc, H, N.eqb_refl. reflexivity.
Qed.

(** X12.  A submit that passes the guard, on a store that is reachable
    and for a primary file whose name does not end in an inherited
    property name, creates exactly one session, added after the stored
    ones: it holds the resolved code and language, the title generated
    from them and exactly one message, of type USER and not empty; the
    router is sent to its identifier, the state is emptied and the
    sessions stored before are still found.  When the identifier of the
    new session was not in use, the route of that session returns it. *)
Theorem submit_creates_one_session (st : State) (db : Db) :
  online db = true -> canSubmit st = true ->
  match primaryName st with
  | Some fileName => plainName toLowerCase fileName = true
  | None => True
  end ->
  let after := handleSubmit toLowerCase toUpperCase st db in
  exists session,
    fst (fst after) = mkState (str "") [] (str "") None
    /\ sessions (snd (fst after)) = sessions db ++ [session]
    /\ snd after = Some (CodeSession.id session)
    /\ CodeSession.code session = fst (resolveContent toLowerCase st)
    /\ CodeSession.language session = snd (resolveContent toLowerCase st)
    /\ CodeSession.title session
       = Some (generateSessionTitle toLowerCase toUpperCase
                 (fst (resolveContent toLowerCase st))
                 (snd (resolveContent toLowerCase st)))
    /\ CodeSession.messages session
       = [ChatMessage.mk
            (SessionRequest.initialMessage (requestBody toLowerCase st)) USER]
    /\ SessionRequest.initialMessage (requestBody toLowerCase st) <> []
    /\ (forall id old,
           findUnique db id = Some old ->
           findUnique (snd (fst after)) id = Some old)
    /\ (findUnique db (CodeSession.id session) = None ->
        SessionRoute.GET (snd (fst after)) (CodeSession.id session)
        = Ok200 session).
Proof.
  intros Hon Hc _ after.
  destruct (handleSubmit_success st db Hon Hc)
    as [session [E [Hcode [Hl [Ht [Hm Hs]]]]]].
  unfold after. rewrite E. cbn [fst snd].
  destruct (findUnique_after_create db
              (mkDb (sessions db ++ [session]) true (N.succ (nextId db)))
              session eq_refl) as [Hold Hnew].
  exists session. repeat split; try assumption.
  intros Hfresh. unfold SessionRoute.GET. cbn [online].
  rewrite (Hnew Hfresh). reflexivity.
Qed.

(** X13.  A PUT that succeeds rewrites the code and the language of the
    one session it names, and nothing else: title, repository and
    messages of that session, every other session and the number of
    sessions are as before, and the route of the session returns the new
    row.  A PUT that fails leaves the store as it was; it fails exactly
    when the store is not reachable or holds no such session. *)
Theorem PUT_changes_code_and_language_only (db : Db) (id : N)
    (body : SessionRoute.PutBody) :
  match SessionRoute.PUT db id body with
  | (db', Ok200 s') =>
      exists s,
        findUnique db id = Some s
        /\ s' = SessionRoute.applyPut body s
        /\ CodeSession.title s' = CodeSession.title s
        /\ CodeSession.githubRepo s' = CodeSession.githubRepo s
        /\ CodeSession.messages s' = CodeSession.messages s
        /\ SessionRoute.GET db' id = Ok200 s'
        /\ (forall id', id' <> id -> findUnique db' id' = findUnique db id')
        /\ length (sessions db') = length (sessions db)
  | (db', _) =>
      db' = db /\ (online db = false \/ findUnique db id = None)
  end.
Proof.
  unfold SessionRoute.PUT.
  destruct (online db) eqn:O; [|split; [reflexivity|left; reflexivity]].
  destruct (updateRow id (SessionRoute.applyPut body) (sessions db))
    as [[rows s']|] eqn:E.
  - destruct (updateRow_some id _ _ _ _ (applyPut_id body) E)
      as [[s [Hf Hs]] [_ [Hl [Hg Ho]]]].
    exists s. subst s'. repeat split; try assumption.
    unfold SessionRoute.GET, findUnique. simpl. rewrite Hg. reflexivity.
  - split; [reflexivity|]. right. apply updateRow_none in E. exact E.
Qed.


(** X14.  A message POST that succeeds appends the message, with its
    type taken from the enumeration, to the messages of the session it
    names and changes nothing else; one that fails (type outside the
    enumeration, store unreachable, unknown session) leaves the store as
    it was. *)
Theorem message_is_appended (db : Db) (id : N) (content type : jsstring) :
  match MessagesRoute.POST toUpperCase db id content type with
  | (db', Some m) =>
      exists s t,
        MessagesRoute.messageType (toUpperCase type) = Some t
        /\ m = ChatMessage.mk content t
        /\ findUnique db id = Some s
        /\ findUnique db' id
           = Some (CodeSession.mk (CodeSession.id s) (CodeSession.code s)
                     (CodeSession.language s) (CodeSession.title s)
                     (CodeSession.githubRepo s)
                     (CodeSession.messages s ++ [m]))
        /\ (forall id', id' <> id -> findUnique db' id' = findUnique db id')
        /\ length (sessions db') = length (sessions db)
  | (db', None) =>
      db' = db
      /\ (MessagesRoute.messageType (toUpperCase type) = None
          \/ online db = false \/ findUnique db id = None)
  end.
Proof.
  unfold MessagesRoute.POST.
  destruct (MessagesRoute.messageType (toUpperCase type)) as [t|] eqn:T;
    [|split; [reflexivity|left; reflexivity]].
  destruct (online db) eqn:O;
    [|split; [reflexivity|right; left; reflexivity]].
  destruct (updateRow id (MessagesRoute.addMessage (ChatMessage.mk content t))
              (sessions db)) as [[rows s']|] eqn:E.
  - destruct (updateRow_some id _ _ _ _
                (addMessage_id (ChatMessage.mk content t)) E)
      as [[s [Hf Hs]] [_ [Hl [Hg Ho]]]].
    exists s, t. subst s'. repeat split; assumption.
  - split; [reflexivity|]. right. right. apply updateRow_none in E. exact E.
Qed.

(** X15.  After a submit that succeeded the state of the component is
    empty, so that submitting again at once stores nothing; after a
    submit that did not succeed the state is kept. *)
Theorem second_submit_is_noop (st : State) (db : Db) :
  match handleSubmit toLowerCase toUpperCase st db with
  | (st', db', Some _) =>
      handleSubmit toLowerCase toUpperCase st' db' = (st', db', None)
  | (st', _, None) => st' = st
  end.
Proof.
  unfold handleSubmit at 1. destruct (canSubmit st); [|reflexivity].
  destruct (POST toLowerCase toUpperCase db (requestBody toLowerCase st))
    as [db' [session|]]; reflexivity.
Qed.

End StoreProperties.

(** ** The editor page *)

Section EditorProperties.

Variable toLowerCase : jsstring -> jsstring.
Variable toUpperCase : jsstring -> jsstring.


(** X17.  The editor page opened on the identifier returned by a submit
    (on a reachable store, for a primary file whose name does not end in
    an inherited property name, the identifier not being in use before)
    shows what was submitted: the resolved code, the language, and one
    chat entry holding the seed message.  On an identifier that the store
    does not hold, the page is sent back to the home page and its state
    is left alone. *)
Theorem editor_opens_submitted_session (st : State) (db : Db) :
  online db = true -> canSubmit st = true ->
  match primaryName st with
  | Some fileName => plainName toLowerCase fileName = true
  | None => True
  end ->
  let after := handleSubmit toLowerCase toUpperCase st db in
  (exists id session,
      snd after = Some id
      /\ (findUnique db id = None ->
          EditorPage.fetchSession toLowerCase (snd (fst after)) id
            EditorPage.initial
          = (EditorPage.mkEditor
               (fst (resolveContent toLowerCase st))
               (snd (resolveContent toLowerCase st))
               [EditorPage.ChatEntry.mk (toLowerCase (str "USER"))
                  (SessionRequest.initialMessage
                     (requestBody toLowerCase st))]
               (str "") (Some session),
             false)))
  /\ (forall id page,
         findUnique (snd (fst after)) id = None ->
         EditorPage.fetchSession toLowerCase (snd (fst after)) id page
         = (page, true)).
Proof.
  intros Hon Hc _ after.
  destruct (handleSubmit_success toLowerCase toUpperCase st db Hon Hc)
    as [session [E [Hcode [Hl [_ [Hm _]]]]]].
  unfold after. rewrite E. cbn [fst snd]. split.
  - exists (CodeSession.id session), session. split; [reflexivity|].
    intros Hfresh.
    destruct (findUnique_after_create db
                (mkDb (sessions db ++ [session]) true (N.succ (nextId db)))
                session eq_refl) as [_ Hnew].
    unfold EditorPage.fetchSession, SessionRoute.GET. cbn [online].
    rewrite (Hnew Hfresh), Hcode, Hl, Hm.
    rewrite orElse_self.
    rewrite (orElse_truthy _ _
               (resolve_language_truthy toLowerCase toUpperCase st)).
    reflexivity.
  - intros id page Hf. unfold EditorPage.fetchSession, SessionRoute.GET.
    cbn [online]. rewrite Hf. reflexivity.
Qed.

(** X18.  Saving and attaching again: for a language of the table, the
    name of the downloaded file is read back as the same language, except
    for typescript, python, ruby, rust and kotlin, whose file comes back
    as javascript.  (Lower-casing is assumed to leave the tags and js as
    they are.) *)
Theorem download_name_read_back (language : jsstring) :
  (forall tag, In tag (str "js" :: tableLanguages) -> toLowerCase tag = tag) ->
  In language tableLanguages ->
  detectLanguageFromFile toLowerCase (EditorPage.downloadName language)
  = if includes
         (List.map str ["typescript"; "python"; "ruby"; "rust"; "kotlin"]%lit)
         language
    then str "javascript" else language.
Proof.
  intros Hlow Hin.
  assert (Hjs := Hlow (str "js") (or_introl eq_refl)).
  assert (Hself := Hlow language (or_intror Hin)).
  vm_compute in Hjs.
  unfold tableLanguages in Hin. simpl in Hin.
  repeat (destruct Hin as [Hin|Hin];
          [subst language; vm_compute in Hself;
           unfold detectLanguageFromFile;
           match goal with
           | |- context [toLowerCase ?e] =>
               let v := eval vm_compute in e in change e with v
           end;
           first [rewrite Hjs | rewrite Hself];
           vm_compute; reflexivity|]).
  contradiction.
Qed.

End EditorProperties.

(** ** Repository references *)

Lemma span_forallb (p : N -> bool) (s : jsstring) :
  forallb p (fst (span p s)) = true
  /\ s = fst (span p s) ++ snd (span p s).
Proof.
  induction s as [|c s [IH1 IH2]]; simpl; [split; reflexivity|].
  destruct (p c) eqn:E; [|split; reflexivity].
  destruct (span p s) as [a b]. simpl in *. rewrite E, IH1.
  split; [reflexivity|f_equal; exact IH2].
Qed.

Lemma span_app (p : N -> bool) (a b : jsstring) :
  forallb p a = true ->
  match b with [] => True | c :: _ => p c = false end ->
  span p (a ++ b) = (a, b).
Proof.
  intros Ha Hb. induction a as [|c a IH]; simpl.
  - destruct b as [|c b]; [reflexivity|]. simpl. rewrite Hb. reflexivity.
  - simpl in Ha. apply andb_true_iff in Ha. destruct Ha as [Hc Ha].
    rewrite Hc, (IH Ha). reflexivity.
Qed.

Lemma stripPrefix_app (p s : jsstring) : stripPrefix p (p ++ s) = Some s.
Proof.
  induction p as [|c p IH]; simpl; [destruct s; reflexivity|].
  rewrite N.eqb_refl. exact IH.
Qed.

Lemma matchRepoAt_parts (s owner repo : jsstring) :
  matchRepoAt s = Some (owner, repo) ->
  owner <> [] /\ repo <> []
  /\ forallb notSlash owner = true /\ forallb notSlash repo = true.
Proof.
  unfold matchRepoAt.
  destruct (stripPrefix (str "github.com/") s) as [r|]; [|discriminate].
  pose proof (span_forallb notSlash r) as [Ho _].
  destruct (span notSlash r) as [o r1]. simpl in Ho.
  destruct o as [|c o]; [discriminate|].
  destruct r1 as [|sl r2]; [discriminate|].
  pose proof (span_forallb notSlash r2) as [Hr _].
  destruct (span notSlash r2) as [rp rest]. simpl in Hr.
  destruct rp as [|d rp]; [discriminate|].
  intros H. injection H as <- <-.
  repeat split; try discriminate; assumption.
Qed.

(** X19.  Whatever the reference, the owner and the repository name that
    are extracted from it are not empty and hold no slash. *)
Theorem matchRepo_parts (repoUrl owner repo : jsstring) :
  matchRepo repoUrl = Some (owner, repo) ->
  owner <> [] /\ repo <> []
  /\ forallb notSlash owner = true /\ forallb notSlash repo = true.
Proof.
  induction repoUrl as [|c s IH]; cbn [matchRepo].
  - destruct (matchRepoAt []) as [[o r]|] eqn:E; [|discriminate].
    intros H. injection H as <- <-. apply (matchRepoAt_parts [] _ _ E).
  - destruct (matchRepoAt (c :: s)) as [[o r]|] eqn:E; [|exact IH].
    intros H. injection H as <- <-.
    apply (matchRepoAt_parts (c :: s) _ _ E).
Qed.

Lemma matchRepo_https (owner repo tail : jsstring) :
  owner <> [] -> repo <> [] ->
  forallb notSlash owner = true -> forallb notSlash repo = true ->
  match tail with [] => True | c :: _ => c = 47%N end ->
  matchRepo (str "https://github.com/" ++ owner ++ str "/" ++ repo ++ tail)
  = Some (owner, repo).
Proof.
  intros Ho Hr Fo Fr Ht.
  change (str "https://github.com/" ++ owner ++ str "/" ++ repo ++ tail)
    with (str "https://"
          ++ (str "github.com/" ++ owner ++ 47%N :: repo ++ tail)).
  assert (M : matchRepoAt (str "github.com/" ++ owner ++ 47%N :: repo ++ tail)
              = Some (owner, repo)).
  { unfold matchRepoAt. rewrite stripPrefix_app.
    rewrite (span_app notSlash owner (47%N :: repo ++ tail) Fo eq_refl).
    destruct owner as [|c o]; [congruence|].
    rewrite (span_app notSlash repo tail Fr).
    - destruct repo; [congruence|reflexivity].
    - destruct tail as [|c' t]; [exact I|]. subst c'. reflexivity. }
  assert (G : forall c s, N.eqb 103 c = false ->
                matchRepo (c :: s) = matchRepo s).
  { intros c s Hc. cbn [matchRepo]. unfold matchRepoAt at 1.
    change (str "github.com/") with (103%N :: str "ithub.com/").
    cbn [stripPrefix]. rewrite Hc. reflexivity. }
  cbn [app str List.map String.list_ascii_of_string].
  rewrite !G by reflexivity.
  change (match matchRepoAt
                  (str "github.com/" ++ owner ++ 47%N :: repo ++ tail) with
          | Some m => Some m
          | None => matchRepo (str "ithub.com/" ++ owner ++ 47%N :: repo ++ tail)
          end = Some (owner, repo)).
  rewrite M. reflexivity.
Qed.

(** X20.  A reference of the usual form, https://github.com/ followed by
    an owner, a slash and a repository name (neither empty nor holding a
    slash), gives back that owner and that name; what follows a further
    slash is ignored. *)
Theorem matchRepo_usual_reference (owner repo tail : jsstring) :
  owner <> [] -> repo <> [] ->
  forallb notSlash owner = true -> forallb notSlash repo = true ->
  match tail with [] => True | c :: _ => c = 47%N end ->
  matchRepo (str "https://github.com/" ++ owner ++ str "/" ++ repo ++ tail)
  = Some (owner, repo).
Proof. exact (matchRepo_https owner repo tail). Qed.

Lemma stripDotGit_app (repo : jsstring) :
  stripDotGit (repo ++ str ".git") = repo.
Proof.
  unfold stripDotGit. rewrite rev_app_distr, stripPrefix_app.
  apply rev_involutive.
Qed.

Lemma forallb_notSlash_git (repo : jsstring) :
  forallb notSlash repo = true ->
  forallb notSlash (repo ++ str ".git") = true.
Proof. intros H. rewrite forallb_app, H. reflexivity. Qed.

(** X21.  The clone address, which ends in .git, resolves to the same
    snapshot as the plain address of the repository, for a repository
    whose own name does not end in .git. *)
Theorem clone_address_resolves_alike
    (toLowerCase : jsstring -> jsstring) (net : Network)
    (owner repo : jsstring) :
  owner <> [] -> repo <> [] ->
  forallb notSlash owner = true -> forallb notSlash repo = true ->
  stripDotGit repo = repo ->
  fetchGitHubRepo toLowerCase net
    (str "https://github.com/" ++ owner ++ str "/" ++ repo ++ str ".git")
  = fetchGitHubRepo toLowerCase net
      (str "https://github.com/" ++ owner ++ str "/" ++ repo).
Proof.
  intros Ho Hr Fo Fr Hs.
  assert (M1 : matchRepo (str "https://github.com/" ++ owner ++ str "/"
                          ++ repo ++ str ".git")
               = Some (owner, repo ++ str ".git")).
  { pose proof (matchRepo_https owner (repo ++ str ".git") [] Ho) as M.
    rewrite app_nil_r in M. apply M.
    - destruct repo; discriminate.
    - exact Fo.
    - apply forallb_notSlash_git, Fr.
    - exact I. }
  assert (M2 : matchRepo (str "https://github.com/" ++ owner ++ str "/"
                          ++ repo)
               = Some (owner, repo)).
  { pose proof (matchRepo_https owner repo [] Ho Hr Fo Fr I) as M.
    rewrite app_nil_r in M. exact M. }
  assert (U : repoApiUrl owner (repo ++ str ".git") = repoApiUrl owner repo).
  { unfold repoApiUrl. rewrite stripDotGit_app, Hs. reflexivity. }
  unfold fetchGitHubRepo. rewrite M1, M2, U. reflexivity.
Qed.

(** ** The sidebar *)

Lemma div_bounds (x d lo hi : Z) :
  (0 < d)%Z -> (lo * d <= x)%Z -> (x < hi * d)%Z ->
  (lo <= x / d)%Z /\ (x / d < hi)%Z.
Proof.
  intros Hd Hlo Hhi. split.
  - apply Z.div_le_lower_bound; lia.
  - apply Z.div_lt_upper_bound; lia.
Qed.

(** X22.  For a valid date, with less than 2^53 milliseconds between the
    two time values: anything younger than one hour, a date in the future
    included, is shown as Just now; from one hour to one day the number
    of hours shown is between 1 and 23; the second day is shown as
    Yesterday; then the number of days shown is between 2 and 6, and
    from one week on the number of weeks shown is at least 1. *)
Theorem formatTimestamp_ranges (date now : Z) :
  (Z.abs (now - date) < 2 ^ 53)%Z ->
  let elapsed := (now - date)%Z in
  let hour := 3600000%Z in
  ((elapsed < hour)%Z ->
   Sidebar.formatTimestamp (Some date) now = str "Just now")
  /\ ((hour <= elapsed < 24 * hour)%Z ->
      Sidebar.formatTimestamp (Some date) now
      = Sidebar.decimal (elapsed / hour) ++ str "h ago"
      /\ (1 <= elapsed / hour <= 23)%Z)
  /\ ((24 * hour <= elapsed < 48 * hour)%Z ->
      Sidebar.formatTimestamp (Some date) now = str "Yesterday")
  /\ ((48 * hour <= elapsed < 168 * hour)%Z ->
      Sidebar.formatTimestamp (Some date) now
      = Sidebar.decimal (elapsed / hour / 24) ++ str "d ago"
      /\ (2 <= elapsed / hour / 24 <= 6)%Z)
  /\ ((168 * hour <= elapsed)%Z ->
      Sidebar.formatTimestamp (Some date) now
      = Sidebar.decimal (elapsed / hour / 24 / 7) ++ str "w ago"
      /\ (1 <= elapsed / hour / 24 / 7)%Z).
Proof.
  intros _ elapsed hour. unfold Sidebar.formatTimestamp.
  change (1000 * 60 * 60)%Z with hour. fold elapsed.
  assert (Hh : (0 < hour)%Z) by (unfold hour; lia).
  split; [|split; [|split; [|split]]].
  - intros H.
    assert (U : (elapsed / hour < 1)%Z)
      by (apply Z.div_lt_upper_bound; lia).
    destruct (Z.ltb_spec (elapsed / hour) 1); [reflexivity|lia].
  - intros [H1 H2].
    destruct (div_bounds elapsed hour 1 24 Hh) as [L U]; [lia|lia|].
    destruct (Z.ltb_spec (elapsed / hour) 1); [lia|].
    destruct (Z.ltb_spec (elapsed / hour) 24); [|lia].
    split; [reflexivity|lia].
  - intros [H1 H2].
    destruct (div_bounds elapsed hour 24 48 Hh) as [L U]; [lia|lia|].
    destruct (Z.ltb_spec (elapsed / hour) 1); [lia|].
    destruct (Z.ltb_spec (elapsed / hour) 24); [lia|].
    destruct (Z.ltb_spec (elapsed / hour) 48); [reflexivity|lia].
  - intros [H1 H2].
    destruct (div_bounds elapsed hour 48 168 Hh) as [L U]; [lia|lia|].
    destruct (div_bounds (elapsed / hour) 24 2 7) as [L' U']; [lia|lia|lia|].
    destruct (Z.ltb_spec (elapsed / hour) 1); [lia|].
    destruct (Z.ltb_spec (elapsed / hour) 24); [lia|].
    destruct (Z.ltb_spec (elapsed / hour) 48); [lia|].
    destruct (Z.ltb_spec (elapsed / hour / 24) 7); [|lia].
    split; [reflexivity|lia].
  - intros H1.
    assert (L : (168 <= elapsed / hour)%Z)
      by (apply Z.div_le_lower_bound; lia).
    assert (L' : (7 <= elapsed / hour / 24)%Z)
      by (apply Z.div_le_lower_bound; lia).
    assert (L'' : (1 <= elapsed / hour / 24 / 7)%Z)
      by (apply Z.div_le_lower_bound; lia).
    destruct (Z.ltb_spec (elapsed / hour) 1); [lia|].
    destruct (Z.ltb_spec (elapsed / hour) 24); [lia|].
    destruct (Z.ltb_spec (elapsed / hour) 48); [lia|].
    destruct (Z.ltb_spec (elapsed / hour / 24) 7); [lia|].
    split; [reflexivity|lia].
Qed.

(** ** The further properties at concrete inputs *)

Lemma dropped_line_does_not_change_title_witness :
  generateSessionTitle asciiToLowerCase asciiToUpperCase
    (str "total = price * quantity" ++ LF :: str "// todo: taxes")
    (str "javascript")
  = generateSessionTitle asciiToLowerCase asciiToUpperCase
      (str "total = price * quantity") (str "javascript").
Proof.
  apply (dropped_line_does_not_change_title asciiToLowerCase asciiToUpperCase
           (str "// todo: taxes") (str "javascript"));
    reflexivity.
Defined.

Lemma header_does_not_reach_title_witness :
  generateSessionTitle asciiToLowerCase asciiToUpperCase
    (fst (resolveContent asciiToLowerCase
            (mkState (str "explain this") [Samples.mainPy] (str "") None)))
    (str "python")
  = generateSessionTitle asciiToLowerCase asciiToUpperCase
      (str "print(1)") (str "python").
Proof.
  exact (proj1
           (header_does_not_reach_title asciiToLowerCase asciiToUpperCase
              (mkState (str "explain this") [Samples.mainPy] (str "") None)
              (str "python") eq_refl eq_refl)
           Samples.mainPy [] (str "print(1)") eq_refl eq_refl eq_refl eq_refl).
Defined.

Lemma detectLanguageFromFile_in_table_witness :
  In (detectLanguageFromFile asciiToLowerCase (str "main.py")) tableLanguages.
Proof.
  apply (detectLanguageFromFile_in_table asciiToLowerCase (str "main.py")).
  vm_compute. reflexivity.
Defined.

Lemma snapshot_is_well_formed_witness :
  match fetchGitHubRepo asciiToLowerCase Samples.oneRepo
          (str "https://github.com/octo/docs") with
  | Some snapshot => length (GitHubRepo.files snapshot) <= 10
  | None => False
  end.
Proof.
  destruct (fetchGitHubRepo asciiToLowerCase Samples.oneRepo
              (str "https://github.com/octo/docs")) as [snapshot|] eqn:E.
  - apply (snapshot_is_well_formed asciiToLowerCase Samples.oneRepo
             (str "https://github.com/octo/docs") snapshot E).
  - vm_compute in E. discriminate E.
Defined.

Lemma stored_title_fits_witness :
  match POST asciiToLowerCase asciiToUpperCase Samples.emptyDb
          (requestBody asciiToLowerCase
             (mkState (str "hello") [Samples.mainPy] (str "") None)) with
  | (_, Some session) =>
      exists title,
        CodeSession.title session = Some title /\ 0 < length title <= 30
  | (_, None) => False
  end.
Proof.
  destruct (POST asciiToLowerCase asciiToUpperCase Samples.emptyDb
              (requestBody asciiToLowerCase
                 (mkState (str "hello") [Samples.mainPy] (str "") None)))
    as [db' [session|]] eqn:E.
  - apply (stored_title_fits asciiToLowerCase asciiToUpperCase
             (mkState (str "hello") [Samples.mainPy] (str "") None)
             Samples.emptyDb db' session).
    + intros c. simpl. lia.
    + left. reflexivity.
    + vm_compute. reflexivity.
    + exact E.
  - vm_compute in E. discriminate E.
Defined.

Lemma removeFile_removes_one_witness :
  attachedFiles
    (removeFile 0
       (mkState (str "") [Samples.mainPy; Samples.broken] (str "") None))
  = [Samples.broken].
Proof.
  exact (proj1 (removeFile_removes_one 0
                  (mkState (str "") [Samples.mainPy; Samples.broken]
                     (str "") None))).
Defined.

Lemma only_first_file_matters_witness :
  requestBody asciiToLowerCase
    (handleFileUpload (Some [Samples.broken])
       (mkState (str "") [Samples.mainPy] (str "") None))
  = requestBody asciiToLowerCase
      (mkState (str "") [Samples.mainPy] (str "") None).
Proof.
  apply (only_first_file_matters asciiToLowerCase asciiToUpperCase
           (mkState (str "") [Samples.mainPy] (str "") None)
           Samples.emptyDb).
  simpl. discriminate.
Defined.

Lemma attach_then_detach_witness :
  requestBody asciiToLowerCase
    (removeGithubRepo
       (handleGithubModalSubmit asciiToLowerCase Samples.oneRepo
          (mkState (str "hello") [] (str "https://github.com/octo/docs")
             None)))
  = requestBody asciiToLowerCase
      (mkState (str "hello") [] (str "https://github.com/octo/docs") None).
Proof.
  apply (attach_then_detach asciiToLowerCase Samples.oneRepo
           (mkState (str "hello") [] (str "https://github.com/octo/docs")
              None)).
  reflexivity.
Defined.

Lemma code_icon_has_language_witness :
  exists language,
    lookup (asciiToLowerCase (last (split 46 (str "Main.PY")) [])) languageMap
    = Some language
    /\ detectLanguageFromFile asciiToLowerCase (str "Main.PY") = language.
Proof.
  apply (code_icon_has_language asciiToLowerCase (str "Main.PY")).
  vm_compute. reflexivity.
Defined.

Lemma submit_creates_one_session_witness :
  snd (handleSubmit asciiToLowerCase asciiToUpperCase
         (mkState (str "hello") [Samples.mainPy] (str "") None)
         Samples.emptyDb)
  = Some 0%N.
Proof.
  destruct (submit_creates_one_session asciiToLowerCase asciiToUpperCase
              (mkState (str "hello") [Samples.mainPy] (str "") None)
              Samples.emptyDb)
    as [session [_ [E [H _]]]].
  - reflexivity.
  - reflexivity.
  - vm_compute. reflexivity.
  - vm_compute in E. injection E as <-. exact H.
Defined.


Lemma editor_opens_submitted_session_witness :
  EditorPage.fetchSession asciiToLowerCase
    (snd (fst (handleSubmit asciiToLowerCase asciiToUpperCase
                 (mkState (str "hello") [Samples.mainPy] (str "") None)
                 Samples.emptyDb)))
    7 EditorPage.initial
  = (EditorPage.initial, true).
Proof.
  apply (editor_opens_submitted_session asciiToLowerCase asciiToUpperCase
           (mkState (str "hello") [Samples.mainPy] (str "") None)
           Samples.emptyDb).
  - reflexivity.
  - reflexivity.
  - vm_compute. reflexivity.
  - reflexivity.
Defined.

Lemma download_name_read_back_witness :
  detectLanguageFromFile asciiToLowerCase
    (EditorPage.downloadName (str "python"))
  = str "javascript".
Proof.
  apply (download_name_read_back asciiToLowerCase (str "python")).
  - intros tag H. simpl in H.
    repeat (destruct H as [H|H]; [subst tag; reflexivity|]).
    contradiction.
  - vm_compute. tauto.
Defined.

Lemma matchRepo_parts_witness :
  forallb notSlash (str "docs") = true.
Proof.
  apply (matchRepo_parts (str "see https://github.com/octo/docs/issues")
           (str "octo") (str "docs")).
  reflexivity.
Defined.

Lemma matchRepo_usual_reference_witness :
  matchRepo (str "https://github.com/octo/docs/tree/main")
  = Some (str "octo", str "docs").
Proof.
  apply (matchRepo_usual_reference (str "octo") (str "docs")
           (str "/tree/main"));
    try discriminate; reflexivity.
Defined.

Lemma clone_address_resolves_alike_witness :
  fetchGitHubRepo asciiToLowerCase Samples.oneRepo
    (str "https://github.com/octo/docs.git")
  = fetchGitHubRepo asciiToLowerCase Samples.oneRepo
      (str "https://github.com/octo/docs").
Proof.
  apply (clone_address_resolves_alike asciiToLowerCase Samples.oneRepo
           (str "octo") (str "docs"));
    try discriminate; reflexivity.
Defined.

Lemma formatTimestamp_ranges_witness :
  Sidebar.formatTimestamp (Some 1000%Z) 18001000%Z = str "5h ago".
Proof.
  assert (R : (Z.abs (18001000 - 1000) < 2 ^ 53)%Z) by (vm_compute; reflexivity).
  destruct (formatTimestamp_ranges 1000 18001000 R) as [_ [H _]].
  destruct H as [H _]; [lia|]. exact H.
Defined.

(** ** Saving and loading again *)

(** X23.  Saving from a page whose session is in a reachable store and
    loading the page again shows the saved code, the saved language
    (javascript when the saved language is empty) and the messages that
    were stored; the title of the session is the one it had. *)
Theorem save_then_reload (toLowerCase : jsstring -> jsstring)
    (st page : EditorPage.EditorState) (db : Db) (s row : CodeSession.t) :
  EditorPage.session st = Some s ->
  online db = true ->
  findUnique db (CodeSession.id s) = Some row ->
  let saved := fst (EditorPage.handleSaveCode st db) in
  exists row',
    EditorPage.fetchSession toLowerCase saved (CodeSession.id s) page
    = (EditorPage.mkEditor (EditorPage.code st)
         (orElse (EditorPage.language st) (str "javascript"))
         (List.map
            (fun msg =>
               EditorPage.ChatEntry.mk
                 (toLowerCase (EditorPage.typeName (ChatMessage.type msg)))
                 (ChatMessage.content msg))
            (CodeSession.messages row))
         (EditorPage.newMessage page) (Some row'),
       false)
    /\ CodeSession.title row' = CodeSession.title row
    /\ CodeSession.code row' = EditorPage.code st
    /\ CodeSession.language row' = EditorPage.language st.
Proof.
  intros Hs Hon Hf saved. unfold saved, EditorPage.handleSaveCode.
  rewrite Hs. cbn [fst]. unfold SessionRoute.PUT. rewrite Hon.
  destruct (updateRow (CodeSession.id s)
              (SessionRoute.applyPut
                 (SessionRoute.mkPutBody (Some (EditorPage.code st))
                    (Some (EditorPage.language st))))
              (sessions db)) as [[rows r']|] eqn:E.
  - destruct (updateRow_some (CodeSession.id s)
                (SessionRoute.applyPut
                   (SessionRoute.mkPutBody (Some (EditorPage.code st))
                      (Some (EditorPage.language st))))
                (sessions db) rows r'
                (fun r => eq_refl (CodeSession.id r)) E)
      as [[r0 [Hr0 Hr']] [_ [_ [Hg _]]]].
    unfold findUnique in Hf. rewrite Hf in Hr0. injection Hr0 as <-.
    subst r'.
    exists (SessionRoute.applyPut
              (SessionRoute.mkPutBody (Some (EditorPage.code st))
                 (Some (EditorPage.language st))) row).
    split; [|repeat split].
    unfold EditorPage.fetchSession, SessionRoute.GET, findUnique.
    cbn [fst online sessions]. rewrite Hg.
    cbn [SessionRoute.applyPut SessionRoute.code SessionRoute.language
         CodeSession.code CodeSession.language CodeSession.messages].
    assert (O : forall a, orElse a (str "") = a)
      by (intros [|c a]; reflexivity).
    rewrite O. reflexivity.
  - apply updateRow_none in E. unfold findUnique in Hf. congruence.
Qed.

Lemma save_then_reload_witness :
  exists row',
    EditorPage.fetchSession asciiToLowerCase
      (fst (EditorPage.handleSaveCode
              (EditorPage.mkEditor (str "y = 2") (str "python") [] (str "")
                 (Some (CodeSession.mk 0 (str "x") (str "javascript") None
                          None [])))
              (mkDb [CodeSession.mk 0 (str "x") (str "javascript") None None
                       [ChatMessage.mk (str "hi") USER]]
                 true 1)))
      0 EditorPage.initial
    = (EditorPage.mkEditor (str "y = 2") (str "python")
         [EditorPage.ChatEntry.mk (str "user") (str "hi")] (str "")
         (Some row'),
       false).
Proof.
  destruct (save_then_reload asciiToLowerCase
              (EditorPage.mkEditor (str "y = 2") (str "python") [] (str "")
                 (Some (CodeSession.mk 0 (str "x") (str "javascript") None
                          None [])))
              EditorPage.initial
              (mkDb [CodeSession.mk 0 (str "x") (str "javascript") None None
                       [ChatMessage.mk (str "hi") USER]]
                 true 1)
              (CodeSession.mk 0 (str "x") (str "javascript") None None [])
              (CodeSession.mk 0 (str "x") (str "javascript") None None
                 [ChatMessage.mk (str "hi") USER])
              eq_refl eq_refl eq_refl) as [row' [E _]].
  exists row'. exact E.
Defined.
